(** * Vendure plugins: popularity scores and Stripe subscriptions

    A shallow embedding of

    - [stripe-subscription.service.ts] (module [StripeSubscription]): the two
      service methods are written in a small trace-and-exception monad; the
      host framework (Vendure services) and the payment provider's SDK are an
      environment that answers every call;
    - the popularity controller and the scoring job it schedules (module
      [Popularity]). *)

From Stdlib Require Import String List Bool NArith ZArith Lia.
Import ListNotations.

Local Open Scope string_scope.

(* ================================================================== *)
(** * The Stripe subscription service *)
(* ================================================================== *)

Module StripeSubscription.

(** ** Entities of the host framework, as far as the service reads them *)

Definition ID := string.

Record Channel := mkChannel {
  channel_id : ID;
  token : string
}.

Record RequestContext := mkRequestContext {
  apiType : string;
  isAuthorized : bool;
  authorizedAsOwnerOnly : bool;
  channel : Channel;
  languageCode : string
}.

Record Customer := mkCustomer {
  emailAddress : string
}.

Record OrderLine := mkOrderLine {
  productVariantId : ID;
  quantity : Z
}.

Record ShippingLine := mkShippingLine {
  shippingMethodId : ID
}.

(** [lines], [customer] and [shippingLines] are relations: absent
    ([undefined]) until they are loaded. *)
Record Order := mkOrder {
  id : ID;
  code : string;
  state : string;
  lines : option (list OrderLine);
  customer : option Customer;
  shippingLines : option (list ShippingLine)
}.

Record ConfigArg := mkConfigArg {
  name : string;
  value : string
}.

(** [handler_args] is [paymentMethod.handler.args]. *)
Record PaymentMethod := mkPaymentMethod {
  pm_code : string;
  handler_args : list ConfigArg
}.

(** An instance of the class [OrderStateTransitionError] that the service
    imports from '@vendure/core'. *)
Record OrderStateTransitionError := mkOrderStateTransitionError {
  fromState : string;
  toState : string;
  transitionError_message : string
}.

Record ErrorResult := mkErrorResult {
  errorCode : string;
  errorResult_message : string
}.

Inductive HistoryEntryType := ORDER_NOTE | ORDER_STATE_TRANSITION.

(** The input of [orderService.addPaymentToOrder]:
    [{ method, metadata: { subscriptionId } }]. *)
Record PaymentInput := mkPaymentInput {
  method : string;
  metadata_subscriptionId : string
}.

(** ** The payment provider's data *)

Record LineItem := mkLineItem {
  price : string;
  item_quantity : Z
}.

Record SessionMetadata := mkSessionMetadata {
  meta_orderCode : string;
  meta_channelToken : string;
  meta_paymentMethodCode : string
}.

Record SessionCreateParams := mkSessionCreateParams {
  mode : string;
  locale : string;
  customer_email : string;
  line_items : list LineItem;
  trial_period_days : Z;
  metadata : SessionMetadata;
  success_url : string;
  cancel_url : string
}.

(** [url] is [string | null] in the SDK. *)
Record Session := mkSession {
  session_id : string;
  url : option string
}.

(** Modelled from the spec: the type [IncomingCheckoutWebhook]
    (stripe.types.ts) is not among the sources; the records have the fields
    the handler reads from the body [{ data: { object: eventData } }].
    Every metadata entry may be missing; [endDate] is a number (seconds),
    as [cancel_at] and [endDate * 1000] need it. *)
Record WebhookMetadata := mkWebhookMetadata {
  orderCode : option string;
  channelToken : option string;
  paymentMethodCode : option string;
  endDate : option Z
}.

Record EventData := mkEventData {
  ev_metadata : WebhookMetadata;
  status : string;
  subscription : string
}.

Record IncomingCheckoutWebhook := mkIncomingCheckoutWebhook {
  data_object : EventData
}.

(** [stripeClient] is [new Stripe(apiKey, ...)]: the client is its key. *)
Record StripeHandlerConfig := mkStripeHandlerConfig {
  stripeClient : string;
  redirectUrl : string;
  downpaymentLabel : option string;
  prorationLabel : option string
}.

(** ** Exceptions *)

Inductive Exn :=
| UserInputError (msg : string)
| Error (msg : string)
| RangeError (msg : string)
| Rejection (cls msg : string).

Definition message (e : Exn) : string :=
  match e with
  | UserInputError m | Error m | RangeError m | Rejection _ m => m
  end.

(** ** Calls that leave the service *)

(** [transitionToState] answers with the order ([inl]) or with an error
    result.  The service tells the two apart by
    [instanceof OrderStateTransitionError], the class it imports: an error
    result is an instance of that class ([inr (inl _)]) or some other
    object ([inr (inr _)]), which the test does not recognise. *)

Inductive Call : Type -> Type :=
| ActiveOrderService_getActiveOrder (ctx : RequestContext)
    : Call (option Order)
| EntityHydrator_hydrate (ctx : RequestContext) (order : Order)
    (relations : list string) : Call Order
| PaymentMethodService_findAll (ctx : RequestContext)
    : Call (list PaymentMethod)
| ChannelService_getChannelFromToken (channelToken : string)
    : Call Channel
| OrderService_findOneByCode (ctx : RequestContext) (orderCode : string)
    : Call (option Order)
| OrderService_transitionToState (ctx : RequestContext) (orderId : ID)
    (st : string)
    : Call (Order + (OrderStateTransitionError + ErrorResult))
| OrderService_addPaymentToOrder (ctx : RequestContext) (orderId : ID)
    (input : PaymentInput) : Call (Order + ErrorResult)
| HistoryService_createHistoryEntryForOrder (ctx : RequestContext)
    (orderId : ID) (type : HistoryEntryType) (note : string)
    (isPublic : bool) : Call unit
| Stripe_checkout_sessions_create (apiKey : string)
    (params : SessionCreateParams) : Call Session
| Stripe_subscriptions_update (apiKey : string) (subscriptionId : string)
    (cancel_at : Z) : Call unit.

(** A promise resolves or rejects. *)
Inductive Reply (X : Type) :=
| Resolved (x : X)
| Rejected (e : Exn).
Arguments Resolved {X} x.
Arguments Rejected {X} e.

Inductive LogLevel := LInfo | LWarn | LError.

(** What an observer of the service sees, oldest first.  [withLoggerCtx]
    tells whether the call passed [loggerCtx]. *)
Inductive Event :=
| Called {X : Type} (c : Call X) (r : Reply X)
| Logged (level : LogLevel) (msg : string) (withLoggerCtx : bool).

Definition Trace := list Event.

(** The environment answers a call knowing everything that happened so
    far, so it stands for any stateful host and provider. *)
Definition Env := forall X : Type, Trace -> Call X -> Reply X.

(** ** The monad: a trace is threaded, an exception ends the run *)

Inductive Outcome (A : Type) :=
| Returned (a : A)
| Threw (e : Exn).
Arguments Returned {A} a.
Arguments Threw {A} e.

Definition M (A : Type) := Env -> Trace -> Trace * Outcome A.

Definition ret {A} (a : A) : M A := fun _ t => (t, Returned a).

Definition throw {A} (e : Exn) : M A := fun _ t => (t, Threw e).

Definition bind {A B} (m : M A) (k : A -> M B) : M B :=
  fun env t =>
    match m env t with
    | (t', Returned a) => k a env t'
    | (t', Threw e) => (t', Threw e)
    end.

Definition await {X} (c : Call X) : M X :=
  fun env t =>
    let r := env X t c in
    ((t ++ [Called c r])%list,
     match r with Resolved x => Returned x | Rejected e => Threw e end).

Definition log (level : LogLevel) (msg : string) (withLoggerCtx : bool)
  : M unit :=
  fun _ t => ((t ++ [Logged level msg withLoggerCtx])%list, Returned tt).

Definition tryCatch {A} (body : M A) (handler : Exn -> M A) : M A :=
  fun env t =>
    match body env t with
    | (t', Returned a) => (t', Returned a)
    | (t', Threw e) => handler e env t'
    end.

Declare Scope svc_scope.
Delimit Scope svc_scope with svc.
Notation "x <- m ;; k" := (bind m (fun x => k))
  (at level 100, m at next level, right associativity) : svc_scope.
Notation "m ;;; k" := (bind m (fun _ => k))
  (at level 100, right associativity) : svc_scope.
Local Open Scope svc_scope.

(** ** JavaScript truthiness of the values the service tests *)

Definition truthy_str (o : option string) : option string :=
  match o with
  | Some s => if (s =? "")%string then None else Some s
  | None => None
  end.

Definition truthy_num (o : option Z) : option Z :=
  match o with
  | Some z => if (z =? 0)%Z then None else Some z
  | None => None
  end.

(** [xs?.length] is falsy for a missing and for an empty array. *)
Definition has_length {A} (o : option (list A)) : bool :=
  match o with
  | Some (_ :: _) => true
  | _ => false
  end.

(** [args.find((arg) => arg.name === n)?.value] *)
Definition arg_value (pm : PaymentMethod) (n : string) : option string :=
  option_map value (find (fun arg => (name arg =? n)%string) (handler_args pm)).

Section Service.

(** Built-ins of the language: [JSON.stringify] on a session, and
    [new Date(ms).toISOString()], which throws a [RangeError] outside the
    range of dates ([None]). *)
Variable JSON_stringify : Session -> string.
Variable toISOString : Z -> option string.

(** ** The private helpers *)

Definition getPaymentMethodByCode (ctx : RequestContext)
  (paymentMethodCode : string) : M (option PaymentMethod) :=
  paymentMethods <- await (PaymentMethodService_findAll ctx) ;;
  ret (find (fun pm => (pm_code pm =? paymentMethodCode)%string)
         paymentMethods).

Definition createContext (channelToken : string) : M RequestContext :=
  channel <- await (ChannelService_getChannelFromToken channelToken) ;;
  ret {| apiType := "admin";
         isAuthorized := true;
         authorizedAsOwnerOnly := false;
         channel := channel;
         languageCode := "en" |}.

Definition getStripeHandler (ctx : RequestContext)
  (paymentMethodCode : string) : M StripeHandlerConfig :=
  paymentMethod <- getPaymentMethodByCode ctx paymentMethodCode ;;
  match paymentMethod with
  | None =>
      throw (UserInputError
               ("No paymentMethod found with code " ++ paymentMethodCode))
  | Some paymentMethod =>
      match truthy_str (arg_value paymentMethod "apiKey"),
            truthy_str (arg_value paymentMethod "redirectUrl") with
      | Some apiKey, Some redirectUrl =>
          ret {| stripeClient := apiKey;
                 redirectUrl := redirectUrl;
                 downpaymentLabel := arg_value paymentMethod "downpaymentLabel";
                 prorationLabel := arg_value paymentMethod "prorationLabel" |}
      | _, _ =>
          log LWarn
            ("CreatePaymentIntent failed, because no apiKey or redirect is configured for "
               ++ pm_code paymentMethod) true ;;;
          throw (UserInputError
                   ("Paymentmethod " ++ pm_code paymentMethod
                      ++ " has no apiKey or redirectUrl configured"))
      end
  end.

Definition logOrderHistory (ctx : RequestContext) (orderId : ID)
  (msg : string) : M unit :=
  await (HistoryService_createHistoryEntryForOrder ctx orderId ORDER_NOTE
           msg false).

(** ** [createStripeSubscriptionPaymentLink] *)

Definition hydrate_relations : list string :=
  ["customer"; "lines.productVariant.product"; "shippingLines.shippingMethod"].

Definition checkout_params (order : Order) (customer : Customer)
  (ctx : RequestContext) (paymentMethodCode redirectUrl : string)
  : SessionCreateParams :=
  {| mode := "subscription";
     locale := "en";
     customer_email := emailAddress customer;
     line_items :=
       [ {| price := "price_1MChevDzZuaioTddfCBc7ERg"; item_quantity := 1 |};
         {| price := "price_1MCheGDzZuaioTddPkGRcVkf"; item_quantity := 1 |};
         {| price := "price_1ME9feDzZuaioTddc9Oe1rpr"; item_quantity := 1 |} ];
     trial_period_days := 20;
     metadata :=
       {| meta_orderCode := code order;
          meta_channelToken := token (channel ctx);
          meta_paymentMethodCode := paymentMethodCode |};
     success_url := redirectUrl ++ "?session_id={CHECKOUT_SESSION_ID}";
     cancel_url := redirectUrl ++ "?session_id={CHECKOUT_SESSION_ID}" |}.

Definition createStripeSubscriptionPaymentLink (ctx : RequestContext)
  (paymentMethodCode : string) : M string :=
  order <- await (ActiveOrderService_getActiveOrder ctx) ;;
  match order with
  | None => throw (UserInputError "No active order for session")
  | Some order =>
      (* hydrate loads the relations into the order it is given *)
      order <- await (EntityHydrator_hydrate ctx order hydrate_relations) ;;
      if negb (has_length (lines order)) then
        throw (UserInputError "Cannot create payment intent for empty order")
      else
        match customer order with
        | None =>
            throw (UserInputError
                     "Cannot create payment intent for order without customer")
        | Some customer =>
            if negb (has_length (shippingLines order)) then
              throw (UserInputError
                       "Cannot create payment intent for order without shippingMethod")
            else
              handler <- getStripeHandler ctx paymentMethodCode ;;
              session <- await (Stripe_checkout_sessions_create
                                  (stripeClient handler)
                                  (checkout_params order customer ctx
                                     paymentMethodCode (redirectUrl handler))) ;;
              match truthy_str (url session) with
              | None =>
                  log LError
                    ("Failed to create payment link " ++ JSON_stringify session)
                    false ;;;
                  throw (Error "Failed to create payment link")
              | Some url => ret url
              end
        end
  end.

(** ** [handlePaymentCompleteEvent] *)

Definition failed_end_date_note (subscriptionId : string) (e : Exn) : string :=
  "!! Failed to set subscription end date for subscription " ++ subscriptionId
    ++ ": " ++ message e.

Definition handlePaymentCompleteEvent (ev : IncomingCheckoutWebhook) : M unit :=
  let eventData := data_object ev in
  let orderCode := orderCode (ev_metadata eventData) in
  let channelToken := channelToken (ev_metadata eventData) in
  let paymentMethodCode := paymentMethodCode (ev_metadata eventData) in
  let endDate := endDate (ev_metadata eventData) in
  match truthy_str orderCode with
  | None =>
      throw (Error
        "Incoming webhook is missing metadata.orderCode, cannot process this event")
  | Some orderCode =>
  match truthy_str channelToken with
  | None =>
      throw (Error
        "Incoming webhook is missing metadata.channelToken, cannot process this event")
  | Some channelToken =>
  ctx <- createContext channelToken ;;
  order <- await (OrderService_findOneByCode ctx orderCode) ;;
  match order with
  | None => throw (Error ("Cannot find order with code " ++ orderCode))
  | Some order =>
  match truthy_str paymentMethodCode with
  | None =>
      throw (Error
        "Incoming webhook is missing metadata.paymentMethodCode, cannot process this event")
  | Some paymentMethodCode =>
  if negb (status eventData =? "complete")%string then
    log LInfo
      ("Received incoming webhook with status " ++ status eventData
         ++ ", not processing this event.") true
  else
    (if negb (state order =? "ArrangingPayment")%string then
       transitionToStateResult <-
         await (OrderService_transitionToState ctx (id order)
                  "ArrangingPayment") ;;
       match transitionToStateResult with
       | inr (inl err) =>
           throw (Error
             ("Error transitioning order " ++ code order ++ " from "
                ++ fromState err ++ " to " ++ toState err ++ ": "
                ++ transitionError_message err))
       | inl _ | inr (inr _) => ret tt
       end
     else ret tt) ;;;
    addPaymentToOrderResult <-
      await (OrderService_addPaymentToOrder ctx (id order)
               {| method := paymentMethodCode;
                  metadata_subscriptionId := subscription eventData |}) ;;
    (match addPaymentToOrderResult with
     | inr err =>
         if (errorCode err =? "")%string then ret tt
         else throw (Error
                ("Error adding payment to order " ++ code order ++ ": "
                   ++ errorResult_message err))
     | inl _ => ret tt
     end) ;;;
    log LInfo
      ("Successfully settled payment for order " ++ code order
         ++ " for channel " ++ channelToken) false ;;;
    let subscriptionId := subscription eventData in
    match truthy_num endDate with
    | None =>
        logOrderHistory ctx (id order)
          ("!! Failed to set subscription end date for subscription "
             ++ subscriptionId ++ "!") ;;;
        log LError
          ("Incoming webhook is missing metadata.endDate, failed to set end date for subscription "
             ++ subscriptionId) true
    | Some endDate =>
        tryCatch
          (handler <- getStripeHandler ctx paymentMethodCode ;;
           await (Stripe_subscriptions_update (stripeClient handler)
                    subscriptionId endDate) ;;;
           day <- match toISOString (endDate * 1000) with
                  | Some iso => ret (substring 0 10 iso)
                  | None => throw (RangeError "Invalid time value")
                  end ;;
           logOrderHistory ctx (id order)
             ("Updated subscription to end at " ++ day))
          (fun e =>
             logOrderHistory ctx (id order)
               (failed_end_date_note subscriptionId e) ;;;
             throw e)
    end
  end end end end.

End Service.

(** ** Observations on a trace *)

(** A request to the payment provider. *)
Definition is_provider_call (e : Event) : bool :=
  match e with
  | Called (Stripe_checkout_sessions_create _ _) _ => true
  | Called (Stripe_subscriptions_update _ _ _) _ => true
  | _ => false
  end.

(** A call that changes an order: a state transition or a payment. *)
Definition is_order_mutation (e : Event) : bool :=
  match e with
  | Called (OrderService_transitionToState _ _ _) _ => true
  | Called (OrderService_addPaymentToOrder _ _ _) _ => true
  | _ => false
  end.

(** Neither of the two. *)
Definition quiet (e : Event) : bool :=
  negb (is_provider_call e) && negb (is_order_mutation e).

Definition last_event (t : Trace) : option Event :=
  last (map Some t) None.

(** The context [createContext] builds for a channel. *)
Definition adminContext (ch : Channel) : RequestContext :=
  {| apiType := "admin";
     isAuthorized := true;
     authorizedAsOwnerOnly := false;
     channel := ch;
     languageCode := "en" |}.

(** The two lookups every run of the webhook handler starts with. *)
Definition lookups (oc ct : string) (ch : Channel) (found : option Order)
  : Trace :=
  [ Called (ChannelService_getChannelFromToken ct) (Resolved ch);
    Called (OrderService_findOneByCode (adminContext ch) oc) (Resolved found) ].

(** The events of a run of the webhook handler up to the settled payment:
    the lookups, the transition unless the order is arranging payment
    already, the payment, and the line in the log. *)
Definition settled (oc ct pmc : string) (ch : Channel)
  (order transitioned paid : Order) (subscriptionId : string) : Trace :=
  (lookups oc ct ch (Some order)
   ++ (if (state order =? "ArrangingPayment")%string then []
       else [ Called (OrderService_transitionToState (adminContext ch)
                        (id order) "ArrangingPayment")
                (Resolved (inl transitioned)) ])
   ++ [ Called (OrderService_addPaymentToOrder (adminContext ch) (id order)
                  {| method := pmc;
                     metadata_subscriptionId := subscriptionId |})
          (Resolved (inl paid));
        Logged LInfo
          ("Successfully settled payment for order " ++ code order
             ++ " for channel " ++ ct)%string false ])%list.

Definition is_history_entry (ctx : RequestContext) (orderId : ID) (e : Event)
  : Prop :=
  exists note r,
    e = Called (HistoryService_createHistoryEntryForOrder ctx orderId
                  ORDER_NOTE note false) r.

(** ** More observations: single kinds of calls, and their order *)

Definition is_session_create (e : Event) : bool :=
  match e with
  | Called (Stripe_checkout_sessions_create _ _) _ => true
  | _ => false
  end.

Definition is_subscription_update (e : Event) : bool :=
  match e with
  | Called (Stripe_subscriptions_update _ _ _) _ => true
  | _ => false
  end.

Definition is_transition (e : Event) : bool :=
  match e with
  | Called (OrderService_transitionToState _ _ _) _ => true
  | _ => false
  end.

Definition is_payment (e : Event) : bool :=
  match e with
  | Called (OrderService_addPaymentToOrder _ _ _) _ => true
  | _ => false
  end.

Definition is_history_call (e : Event) : bool :=
  match e with
  | Called (HistoryService_createHistoryEntryForOrder _ _ _ _ _) _ => true
  | _ => false
  end.

(** The host answered [addPaymentToOrder] with something the handler takes
    for a success: an order, or a result whose [errorCode] is falsy. *)
Definition accepted_payment (r : Reply (Order + ErrorResult)) : bool :=
  match r with
  | Resolved (inl _) => true
  | Resolved (inr err) => (errorCode err =? "")%string
  | Rejected _ => false
  end.

Definition is_accepted_payment (e : Event) : bool :=
  match e with
  | Called (OrderService_addPaymentToOrder _ _ _) r => accepted_payment r
  | _ => false
  end.

(** The request context a call is made with, when it takes one. *)
Definition call_ctx {X} (c : Call X) : option RequestContext :=
  match c with
  | ActiveOrderService_getActiveOrder ctx => Some ctx
  | EntityHydrator_hydrate ctx _ _ => Some ctx
  | PaymentMethodService_findAll ctx => Some ctx
  | ChannelService_getChannelFromToken _ => None
  | OrderService_findOneByCode ctx _ => Some ctx
  | OrderService_transitionToState ctx _ _ => Some ctx
  | OrderService_addPaymentToOrder ctx _ _ => Some ctx
  | HistoryService_createHistoryEntryForOrder ctx _ _ _ _ => Some ctx
  | Stripe_checkout_sessions_create _ _ => None
  | Stripe_subscriptions_update _ _ _ => None
  end.

Definition event_ctx (e : Event) : option RequestContext :=
  match e with
  | Called c _ => call_ctx c
  | Logged _ _ _ => None
  end.

(** The order a call is about, when it names one by its id. *)
Definition call_orderId {X} (c : Call X) : option ID :=
  match c with
  | OrderService_transitionToState _ orderId _ => Some orderId
  | OrderService_addPaymentToOrder _ orderId _ => Some orderId
  | HistoryService_createHistoryEntryForOrder _ orderId _ _ _ => Some orderId
  | _ => None
  end.

Definition event_orderId (e : Event) : option ID :=
  match e with
  | Called c _ => call_orderId c
  | Logged _ _ _ => None
  end.

(** Type and visibility of a history entry that is written. *)
Definition history_shape (e : Event) : option (HistoryEntryType * bool) :=
  match e with
  | Called (HistoryService_createHistoryEntryForOrder _ _ type _ isPublic) _ =>
      Some (type, isPublic)
  | _ => None
  end.

(** The metadata of a webhook event that carries the metadata the service
    put on the checkout session: the three entries of
    [createStripeSubscriptionPaymentLink], and no [endDate]. *)
Definition echoed (m : SessionMetadata) : WebhookMetadata :=
  {| orderCode := Some (meta_orderCode m);
     channelToken := Some (meta_channelToken m);
     paymentMethodCode := Some (meta_paymentMethodCode m);
     endDate := None |}.

(** Scan a trace: every event that [guarded] holds of comes after an event
    that [opens] holds of. *)
Fixpoint guarded_by (opens guarded : Event -> bool) (opened : bool)
  (t : Trace) : bool :=
  match t with
  | [] => true
  | e :: t' =>
      (if guarded e then opened else true)
      && guarded_by opens guarded (opened || opens e) t'
  end.

End StripeSubscription.

(* ================================================================== *)
(** * The popularity plugin *)
(* ================================================================== *)

Module Popularity.

(** Of this plugin the sources hold the controller and the end-to-end test.
    The scoring service the controller calls ([SortService],
    sort.service.ts) is missing: what it does is modelled from the
    specification, and the figures of the end-to-end test are replayed
    against the model.  The entities are those of the host framework, with
    the fields the test reads. *)

Definition ID := string.

(** The request context the controller receives; the job carries it along. *)
Record RequestContext := mkRequestContext {
  ctx_channelToken : string;
  ctx_apiType : string
}.

(** An order line, with the product of its variant
    ([line.productVariant.product.id] in the test). *)
Record OrderLine := mkOrderLine {
  line_productId : ID;
  line_variantId : ID;
  quantity : N
}.

Record Order := mkOrder {
  order_channels : list string;
  settled : bool;
  lines : list OrderLine
}.

(** [popularityScore] is [product.customFields.popularityScore]. *)
Record Product := mkProduct {
  product_id : ID;
  product_channels : list string;
  popularityScore : N
}.

(** A collection with the products whose variants it holds, its custom
    field [customFields.popularityScore] and its child collections. *)
#[local] Unset Elimination Schemes.
Inductive Collection := mkCollection {
  collection_id : ID;
  collection_products : list ID;
  collection_popularityScore : N;
  children : list Collection
}.
#[local] Set Elimination Schemes.

(** What the host persists: the orders, the products and the collection
    tree under its root. *)
Record Store := mkStore {
  orders : list Order;
  products : list Product;
  collections : Collection
}.

Definition in_channel (token : string) (channels : list string) : bool :=
  existsb (fun c => (c =? token)%string) channels.

(** ** The scoring job *)

(** Modelled from the spec: the query of the missing scoring service,
    "queries historical settled orders per channel".  An order counts for a
    channel when it is settled and belongs to the channel. *)
Definition counts (token : string) (o : Order) : bool :=
  settled o && in_channel token (order_channels o).

(** Modelled from the spec: the "order volume" of the missing scoring
    service, the number of items of a product in the orders that count. *)
Definition lineVolume (pid : ID) (l : OrderLine) : N :=
  if (line_productId l =? pid)%string then quantity l else 0%N.

Definition orderVolume (token : string) (pid : ID) (o : Order) : N :=
  if counts token o
  then fold_right (fun l acc => (lineVolume pid l + acc)%N) 0%N (lines o)
  else 0%N.

Definition volume (token : string) (os : list Order) (pid : ID) : N :=
  fold_right (fun o acc => (orderVolume token pid o + acc)%N) 0%N os.

(** The products that were sold in the channel, and the highest volume
    among them. *)
Definition soldProducts (token : string) (os : list Order) : list ID :=
  flat_map
    (fun o =>
       if counts token o then map line_productId (lines o) else [])
    os.

Definition maxVolume (token : string) (os : list Order) : N :=
  fold_right (fun pid acc => N.max (volume token os pid) acc) 0%N
    (soldProducts token os).

Definition maxValue : N := 1000.

(** Modelled from the spec: the score of the missing scoring service,
    "computes a score per product" from the order volume.  The end-to-end
    test fixes the scale: the best-selling product of the channel scores
    1000, a product with 8 items sold against 10 scores 800, a product
    that was never sold scores 0. *)
Definition productScore (token : string) (os : list Order) (pid : ID) : N :=
  let m := maxVolume token os in
  if (m =? 0)%N then 0%N else (volume token os pid * maxValue / m)%N.

Definition with_score (p : Product) (score : N) : Product :=
  {| product_id := product_id p;
     product_channels := product_channels p;
     popularityScore := score |}.

(** Modelled from the spec: the write of the missing scoring service,
    "persists it to a custom field", for every product of the channel. *)
Definition setProductPopularity (token : string) (os : list Order)
  (ps : list Product) : list Product :=
  map (fun p =>
         if in_channel token (product_channels p)
         then with_score p (productScore token os (product_id p))
         else p)
      ps.

(** The stored score of a product, read by its id. *)
Definition scoreOf (ps : list Product) (pid : ID) : N :=
  match find (fun p => (product_id p =? pid)%string) ps with
  | Some p => popularityScore p
  | None => 0%N
  end.

Definition sumN (l : list N) : N := fold_right N.add 0%N l.

(** The score of the products a collection holds itself: in the test a
    collection that holds the variants of one product has the score of that
    product. *)
Definition ownScore (ps : list Product) (c : Collection) : N :=
  sumN (map (scoreOf ps) (collection_products c)).

(** Modelled from the spec: the collection walk of the missing scoring
    service, "walks the collection tree bottom-up summing child scores into
    parent collections".  The children are scored first; a collection gets
    the score of its own products plus the scores of its children. *)
Fixpoint setCollectionPopularity (ps : list Product) (c : Collection)
  : Collection :=
  let kids := map (setCollectionPopularity ps) (children c) in
  {| collection_id := collection_id c;
     collection_products := collection_products c;
     collection_popularityScore :=
       (ownScore ps c + sumN (map collection_popularityScore kids))%N;
     children := kids |}.

(** Modelled from the spec: the job of the missing scoring service, for
    the channel of the token: "computes a score per product, persists it to
    a custom field, then walks the collection tree". *)
Definition calculateScoreJob (token : string) (st : Store) : Store :=
  let ps := setProductPopularity token (orders st) (products st) in
  {| orders := orders st;
     products := ps;
     collections := setCollectionPopularity ps (collections st) |}.

(** All collections below a collection, and the tree as a list. *)
Fixpoint descendants (c : Collection) : list Collection :=
  flat_map (fun k => k :: descendants k) (children c).

Definition subtree (c : Collection) : list Collection := c :: descendants c.


(** The stored scores are the ones the job would compute now. *)
Definition up_to_date (token : string) (st : Store) : Prop :=
  calculateScoreJob token st = st.

(** ** The job queue and the controller *)

Record Job := mkJob {
  job_channelToken : string;
  job_ctx : RequestContext
}.

(** The shop: what is persisted, and the jobs that wait. *)
Record State := mkState {
  store : Store;
  queue : list Job
}.

(** Modelled from the spec: [SortService.addScoreCalculatingJobToQueue] is
    not among the sources; the scoring is "scheduled via a job queue
    abstraction supplied by the host": the call appends a job with its two
    arguments and touches nothing else. *)
Definition addScoreCalculatingJobToQueue (token : string)
  (ctx : RequestContext) (s : State) : unit * State :=
  (tt, {| store := store s;
          queue := (queue s ++ [ {| job_channelToken := token;
                                    job_ctx := ctx |} ])%list |}).

(** [OrderByPopularityController.calculateScores], the handler of
    [GET /order-by-popularity/calculate-scores/:mychanneltoken]: it awaits
    [sortService.addScoreCalculatingJobToQueue(token, ctx)] and returns
    nothing. *)
Definition calculateScores (ctx : RequestContext) (token : string)
  (s : State) : unit * State :=
  addScoreCalculatingJobToQueue token ctx s.

(** Modelled from the spec: the worker of the host's job queue, which is not
    among the sources; it takes the oldest job and runs the scoring for the
    channel of the job's token. *)
Definition processNextJob (s : State) : State :=
  match queue s with
  | [] => s
  | j :: rest =>
      {| store := calculateScoreJob (job_channelToken j) (store s);
         queue := rest |}
  end.

(** What the controller and the worker do to the shop. *)
Inductive Action :=
| HttpCalculateScores (ctx : RequestContext) (token : string)
| WorkerTick.

Definition step (a : Action) (s : State) : State :=
  match a with
  | HttpCalculateScores ctx token => snd (calculateScores ctx token s)
  | WorkerTick => processNextJob s
  end.

End Popularity.

(* ================================================================== *)
(** * Concrete shops to run the definitions on *)
(* ================================================================== *)

Module StripeSamples.
Import StripeSubscription.

Definition shopChannel : Channel :=
  {| channel_id := "1"; token := "shop-token" |}.

Definition shopCtx : RequestContext :=
  {| apiType := "shop";
     isAuthorized := true;
     authorizedAsOwnerOnly := true;
     channel := shopChannel;
     languageCode := "en" |}.

(** An active order before and after its relations are loaded. *)
Definition bareOrder : Order :=
  {| id := "7"; code := "ORD7"; state := "AddingItems";
     lines := None; customer := None; shippingLines := None |}.

Definition emptyOrder : Order :=
  {| id := "7"; code := "ORD7"; state := "AddingItems";
     lines := Some []; customer := None; shippingLines := Some [] |}.

Definition fullOrder : Order :=
  {| id := "7"; code := "ORD7"; state := "AddingItems";
     lines := Some [ {| productVariantId := "3"; quantity := 1 |} ];
     customer := Some {| emailAddress := "hayden@example.com" |};
     shippingLines := Some [ {| shippingMethodId := "1" |} ] |}.

Definition arrangingOrder : Order :=
  {| id := "7"; code := "ORD7"; state := "ArrangingPayment";
     lines := None; customer := None; shippingLines := None |}.

Definition settledOrder : Order :=
  {| id := "7"; code := "ORD7"; state := "PaymentSettled";
     lines := None; customer := None; shippingLines := None |}.

Definition stripeMethod : PaymentMethod :=
  {| pm_code := "stripe-subscription";
     handler_args :=
       [ {| name := "apiKey"; value := "sk_test_1" |};
         {| name := "redirectUrl"; value := "https://shop.example/order" |} ] |}.

Definition linkedSession : Session :=
  {| session_id := "cs_test_1";
     url := Some "https://checkout.example/pay/cs_test_1" |}.


(** What a scripted host and provider answer. *)
Record Script := mkScript {
  s_active : option Order;
  s_hydrated : Order;
  s_methods : list PaymentMethod;
  s_found : option Order;
  s_session : Session;
  s_update : Reply unit;
  s_history : Reply unit
}.

Definition scripted (sc : Script) : Env :=
  fun X _ c =>
    match c in Call X return Reply X with
    | ActiveOrderService_getActiveOrder _ => Resolved (s_active sc)
    | EntityHydrator_hydrate _ _ _ => Resolved (s_hydrated sc)
    | PaymentMethodService_findAll _ => Resolved (s_methods sc)
    | ChannelService_getChannelFromToken t =>
        Resolved {| channel_id := "1"; token := t |}
    | OrderService_findOneByCode _ _ => Resolved (s_found sc)
    | OrderService_transitionToState _ _ _ => Resolved (inl arrangingOrder)
    | OrderService_addPaymentToOrder _ _ _ => Resolved (inl settledOrder)
    | HistoryService_createHistoryEntryForOrder _ _ _ _ _ => s_history sc
    | Stripe_checkout_sessions_create _ _ => Resolved (s_session sc)
    | Stripe_subscriptions_update _ _ _ => s_update sc
    end.

Definition noOrder : Script :=
  {| s_active := None; s_hydrated := bareOrder; s_methods := [stripeMethod];
     s_found := None; s_session := linkedSession;
     s_update := Resolved tt; s_history := Resolved tt |}.

Definition noLines : Script :=
  {| s_active := Some bareOrder; s_hydrated := emptyOrder;
     s_methods := [stripeMethod];
     s_found := None; s_session := linkedSession;
     s_update := Resolved tt; s_history := Resolved tt |}.

Definition checkout : Script :=
  {| s_active := Some bareOrder; s_hydrated := fullOrder;
     s_methods := [stripeMethod];
     s_found := Some fullOrder; s_session := linkedSession;
     s_update := Resolved tt; s_history := Resolved tt |}.


Definition webhook (st : string) (pm : option string) (endDate : option Z)
  : IncomingCheckoutWebhook :=
  {| data_object :=
       {| ev_metadata :=
            {| orderCode := Some "ORD7";
               channelToken := Some "shop-token";
               paymentMethodCode := pm;
               endDate := endDate |};
          status := st;
          subscription := "sub_1" |} |}.

(** The context of the webhook handler and the events of a settled
    payment in the scripted shop. *)
Definition adminCtx : RequestContext := adminContext shopChannel.

Definition paymentInput : PaymentInput :=
  {| method := "stripe-subscription"; metadata_subscriptionId := "sub_1" |}.

Definition settledTrace : Trace :=
  [ Called (ChannelService_getChannelFromToken "shop-token")
      (Resolved shopChannel);
    Called (OrderService_findOneByCode adminCtx "ORD7")
      (Resolved (Some fullOrder));
    Called (OrderService_transitionToState adminCtx "7" "ArrangingPayment")
      (Resolved (inl arrangingOrder));
    Called (OrderService_addPaymentToOrder adminCtx "7" paymentInput)
      (Resolved (inl settledOrder));
    Logged LInfo
      "Successfully settled payment for order ORD7 for channel shop-token"
      false ].

Definition sample_stringify (s : Session) : string :=
  "{id:" ++ session_id s ++ "}".

Definition sample_toISOString (ms : Z) : option string :=
  if (ms =? 1700000000000)%Z then Some "2023-11-14T22:13:20.000Z" else None.

(** A host and a provider with one answer for each kind of call. *)
Record Host := mkHost {
  h_active : Reply (option Order);
  h_hydrated : Reply Order;
  h_methods : Reply (list PaymentMethod);
  h_channel : Reply Channel;
  h_found : Reply (option Order);
  h_transition : Reply (Order + (OrderStateTransitionError + ErrorResult));
  h_payment : Reply (Order + ErrorResult);
  h_history : Reply unit;
  h_session : Reply Session;
  h_update : Reply unit
}.

Definition hosted (h : Host) : Env :=
  fun X _ c =>
    match c in Call X return Reply X with
    | ActiveOrderService_getActiveOrder _ => h_active h
    | EntityHydrator_hydrate _ _ _ => h_hydrated h
    | PaymentMethodService_findAll _ => h_methods h
    | ChannelService_getChannelFromToken _ => h_channel h
    | OrderService_findOneByCode _ _ => h_found h
    | OrderService_transitionToState _ _ _ => h_transition h
    | OrderService_addPaymentToOrder _ _ _ => h_payment h
    | HistoryService_createHistoryEntryForOrder _ _ _ _ _ => h_history h
    | Stripe_checkout_sessions_create _ _ => h_session h
    | Stripe_subscriptions_update _ _ _ => h_update h
    end.

(** The host of a webhook, by what it answers to the lookups, the
    transition and the payment, and by the payment methods it lists. *)
Definition webhookHost (ch : Reply Channel) (found : Reply (option Order))
  (transition : Reply (Order + (OrderStateTransitionError + ErrorResult)))
  (payment : Reply (Order + ErrorResult)) (methods : list PaymentMethod)
  : Host :=
  {| h_active := Resolved (Some bareOrder);
     h_hydrated := Resolved fullOrder;
     h_methods := Resolved methods;
     h_channel := ch;
     h_found := found;
     h_transition := transition;
     h_payment := payment;
     h_history := Resolved tt;
     h_session := Resolved linkedSession;
     h_update := Resolved tt |}.

Definition goodHost : Host :=
  webhookHost (Resolved shopChannel) (Resolved (Some fullOrder))
    (Resolved (inl arrangingOrder)) (Resolved (inl settledOrder))
    [stripeMethod].

Definition hostDown : Exn := Rejection "QueryFailedError" "connection lost".

Definition channelDown : Host :=
  webhookHost (Rejected hostDown) (Resolved (Some fullOrder))
    (Resolved (inl arrangingOrder)) (Resolved (inl settledOrder))
    [stripeMethod].

Definition orderLookupDown : Host :=
  webhookHost (Resolved shopChannel) (Rejected hostDown)
    (Resolved (inl arrangingOrder)) (Resolved (inl settledOrder))
    [stripeMethod].

Definition refusal : OrderStateTransitionError :=
  {| fromState := "AddingItems"; toState := "ArrangingPayment";
     transitionError_message := "Cannot transition without a customer" |}.

Definition transitionRefused : Host :=
  webhookHost (Resolved shopChannel) (Resolved (Some fullOrder))
    (Resolved (inr (inl refusal))) (Resolved (inl settledOrder))
    [stripeMethod].

(** A refusal that is not an instance of the class the service imports. *)
Definition foreignRefusal : ErrorResult :=
  {| errorCode := "ORDER_STATE_TRANSITION_ERROR";
     errorResult_message := "Cannot transition without a customer" |}.

Definition transitionRefusedForeign : Host :=
  webhookHost (Resolved shopChannel) (Resolved (Some fullOrder))
    (Resolved (inr (inr foreignRefusal))) (Resolved (inl settledOrder))
    [stripeMethod].

Definition declined : ErrorResult :=
  {| errorCode := "PAYMENT_DECLINED_ERROR";
     errorResult_message := "The payment was declined" |}.

Definition paymentDeclined : Host :=
  webhookHost (Resolved shopChannel) (Resolved (Some fullOrder))
    (Resolved (inl arrangingOrder)) (Resolved (inr declined)) [stripeMethod].

(** A payment method of another code, and one whose [apiKey] is empty. *)
Definition otherMethod : PaymentMethod :=
  {| pm_code := "cash"; handler_args := [] |}.

Definition unkeyedMethod : PaymentMethod :=
  {| pm_code := "stripe-subscription";
     handler_args :=
       [ {| name := "apiKey"; value := "" |};
         {| name := "redirectUrl"; value := "https://shop.example/order" |} ] |}.

Definition methodUnknown : Host :=
  webhookHost (Resolved shopChannel) (Resolved (Some fullOrder))
    (Resolved (inl arrangingOrder)) (Resolved (inl settledOrder))
    [otherMethod].

Definition methodUnkeyed : Host :=
  webhookHost (Resolved shopChannel) (Resolved (Some fullOrder))
    (Resolved (inl arrangingOrder)) (Resolved (inl settledOrder))
    [otherMethod; unkeyedMethod].

(** The complete event of the session the service creates for
    [fullOrder]. *)
Definition echoWebhook : IncomingCheckoutWebhook :=
  {| data_object :=
       {| ev_metadata :=
            echoed (metadata
                      (checkout_params fullOrder
                         {| emailAddress := "hayden@example.com" |} shopCtx
                         "stripe-subscription" "https://shop.example/order"));
          status := "complete";
          subscription := "sub_1" |} |}.

Definition completeWebhook (endDate : option Z) : IncomingCheckoutWebhook :=
  webhook "complete" (Some "stripe-subscription") endDate.

End StripeSamples.

Module PopularitySamples.
Import Popularity.

(** The shop of the end-to-end test when the controller is called: five
    settled orders of two items of product T_1, one settled order of two
    items of each of the four variants of product T_3, no order for product
    T_2; below the root collection T_1 the collections T_2 and T_3 hold
    product T_1, T_4 holds product T_2 and T_5 holds product T_3. *)
Definition defaultChannel : string := "e2e-default-channel".

Definition superadmin : RequestContext :=
  {| ctx_channelToken := defaultChannel; ctx_apiType := "admin" |}.

Definition laptopOrder : Order :=
  {| order_channels := [defaultChannel];
     settled := true;
     lines := [ {| line_productId := "T_1"; line_variantId := "T_2";
                   quantity := 2 |} ] |}.

Definition anotherOrder : Order :=
  {| order_channels := [defaultChannel];
     settled := true;
     lines :=
       map (fun v => {| line_productId := "T_3"; line_variantId := v;
                        quantity := 2 |})
           ["another-00-10"; "another-00-11"; "another-01-10"; "another-01-11"] |}.

Definition newProduct (pid : ID) : Product :=
  {| product_id := pid; product_channels := [defaultChannel];
     popularityScore := 0 |}.

Definition leaf (cid : ID) (pids : list ID) : Collection :=
  {| collection_id := cid; collection_products := pids;
     collection_popularityScore := 0; children := [] |}.

Definition e2eCollections : Collection :=
  {| collection_id := "T_1"; collection_products := [];
     collection_popularityScore := 0;
     children := [ leaf "T_2" ["T_1"]; leaf "T_3" ["T_1"];
                   leaf "T_4" ["T_2"]; leaf "T_5" ["T_3"] ] |}.

Definition e2eStore : Store :=
  {| orders := repeat laptopOrder 5 ++ [anotherOrder];
     products := [newProduct "T_1"; newProduct "T_2"; newProduct "T_3"];
     collections := e2eCollections |}.

Definition e2eScored : State :=
  step WorkerTick
    (step (HttpCalculateScores superadmin defaultChannel)
       {| store := e2eStore; queue := [] |}).

(** The same orders with an order of another channel among them. *)
Definition otherChannelOrder : Order :=
  {| order_channels := ["other-channel"];
     settled := true;
     lines := [ {| line_productId := "T_2"; line_variantId := "T_5";
                   quantity := 40 |} ] |}.

Definition e2eStoreWithOtherChannel : Store :=
  {| orders := otherChannelOrder :: orders e2eStore;
     products := products e2eStore;
     collections := collections e2eStore |}.

End PopularitySamples.

(* ================================================================== *)
(** * Facts about the Stripe subscription service *)
(* ================================================================== *)

Module StripeSubscriptionFacts.
Import StripeSubscription.

Local Open Scope list_scope.

#[local] Arguments String.append : simpl never.
#[local] Arguments String.eqb : simpl never.

(** Unfold the service methods and the monad they are written in. *)
Ltac unfold_svc :=
  unfold createStripeSubscriptionPaymentLink, handlePaymentCompleteEvent,
    getStripeHandler, getPaymentMethodByCode, createContext, logOrderHistory,
    tryCatch, bind, await, log, throw, ret; cbn [fst snd app].

(** Case split on the oldest answer of [env] that is still unknown. *)
Ltac next_reply env :=
  match goal with
  | |- context [env ?X ?h ?c] =>
      lazymatch h with
      | context [env _ _ _] => fail
      | _ => destruct (env X h c) eqn:?; cbn
      end
  end.

(** Find a history entry in a trace that is written out. *)
Ltac find_history_entry :=
  solve [ repeat first
            [ apply Exists_cons_hd; unfold is_history_entry;
              do 2 eexists; reflexivity
            | apply Exists_cons_tl ] ].

Section Facts.

Variable JSON_stringify : Session -> string.
Variable toISOString : Z -> option string.

(** C8. [createStripeSubscriptionPaymentLink] throws a [UserInputError]
    when the session has no active order, or when the hydrated active order
    has no lines, no customer or no shipping lines; the run then ends before
    any request to the payment provider and without any call that changes
    an order. *)
Theorem createLink_prechecks_throw
  (env : Env) (ctx : RequestContext) (paymentMethodCode : string)
  (active : option Order) (hydrated : Order)
  (Hactive : forall h,
      env _ h (ActiveOrderService_getActiveOrder ctx) = Resolved active)
  (Hhydrate : forall h o,
      env _ h (EntityHydrator_hydrate ctx o hydrate_relations)
      = Resolved hydrated)
  (Hbad : active = None
          \/ has_length (lines hydrated) = false
          \/ customer hydrated = None
          \/ has_length (shippingLines hydrated) = false) :
  let run :=
    createStripeSubscriptionPaymentLink JSON_stringify ctx paymentMethodCode
      env [] in
  (exists msg, snd run = Threw (UserInputError msg))
  /\ forallb quiet (fst run) = true
  /\ (active = None ->
      snd run = Threw (UserInputError "No active order for session"))
  /\ (active <> None -> has_length (lines hydrated) = false ->
      snd run = Threw (UserInputError
                         "Cannot create payment intent for empty order"))
  /\ (active <> None -> has_length (lines hydrated) = true ->
      customer hydrated = None ->
      snd run = Threw (UserInputError
                         "Cannot create payment intent for order without customer"))
  /\ (active <> None -> has_length (lines hydrated) = true ->
      customer hydrated <> None ->
      has_length (shippingLines hydrated) = false ->
      snd run = Threw (UserInputError
                         "Cannot create payment intent for order without shippingMethod")).
Proof.
  unfold_svc. rewrite Hactive.
  destruct active as [o|]; cbn.
  - rewrite Hhydrate; cbn.
    destruct (has_length (lines hydrated)) eqn:Hl; cbn.
    + destruct (customer hydrated) as [c|] eqn:Hc; cbn.
      * destruct (has_length (shippingLines hydrated)) eqn:Hs; cbn.
        -- exfalso. destruct Hbad as [H|[H|[H|H]]]; discriminate.
        -- repeat split; eauto; intros; congruence.
      * repeat split; eauto; intros; congruence.
    + repeat split; eauto; intros; congruence.
  - repeat split; eauto; intros; congruence.
Qed.

(** C6. With an active order that has a line, a customer and a shipping
    line, and a payment method of the given code that carries an [apiKey]
    and a [redirectUrl], the method asks the payment provider for a checkout
    session and returns the URL of the session it gets; a session without
    URL makes it log and throw. *)
Theorem createLink_returns_session_url
  (env : Env) (ctx : RequestContext) (paymentMethodCode : string)
  (active hydrated : Order) (cust : Customer)
  (paymentMethods : list PaymentMethod) (paymentMethod : PaymentMethod)
  (apiKey redirect : string) (session : Session)
  (Hactive : forall h,
      env _ h (ActiveOrderService_getActiveOrder ctx) = Resolved (Some active))
  (Hhydrate : forall h,
      env _ h (EntityHydrator_hydrate ctx active hydrate_relations)
      = Resolved hydrated)
  (Hlines : has_length (lines hydrated) = true)
  (Hcustomer : customer hydrated = Some cust)
  (Hshipping : has_length (shippingLines hydrated) = true)
  (Hmethods : forall h,
      env _ h (PaymentMethodService_findAll ctx) = Resolved paymentMethods)
  (Hmethod :
      find (fun pm => (pm_code pm =? paymentMethodCode)%string) paymentMethods
      = Some paymentMethod)
  (HapiKey : truthy_str (arg_value paymentMethod "apiKey") = Some apiKey)
  (Hredirect :
      truthy_str (arg_value paymentMethod "redirectUrl") = Some redirect)
  (Hcreate : forall h params,
      env _ h (Stripe_checkout_sessions_create apiKey params)
      = Resolved session) :
  let calls :=
    [ Called (ActiveOrderService_getActiveOrder ctx) (Resolved (Some active));
      Called (EntityHydrator_hydrate ctx active hydrate_relations)
        (Resolved hydrated);
      Called (PaymentMethodService_findAll ctx) (Resolved paymentMethods);
      Called (Stripe_checkout_sessions_create apiKey
                (checkout_params hydrated cust ctx paymentMethodCode redirect))
        (Resolved session) ] in
  createStripeSubscriptionPaymentLink JSON_stringify ctx paymentMethodCode
    env []
  = match truthy_str (url session) with
    | Some link => (calls, Returned link)
    | None =>
        (calls ++ [Logged LError
                     ("Failed to create payment link "
                        ++ JSON_stringify session)%string false],
         Threw (Error "Failed to create payment link"))
    end.
Proof.
  unfold_svc. rewrite Hactive; cbn. rewrite Hhydrate; cbn.
  rewrite Hlines, Hcustomer, Hshipping; cbn.
  rewrite Hmethods; cbn. rewrite Hmethod, HapiKey, Hredirect; cbn.
  rewrite Hcreate; cbn.
  destruct (truthy_str (url session)); reflexivity.
Qed.

(** One step of a run: the next answer of the environment, or the next
    test on a value it gave. *)
Ltac next_branch env :=
  first
    [ next_reply env
    | match goal with
      | |- context [match find ?f ?l with _ => _ end] =>
          destruct (find f l) eqn:?; cbn
      | |- context [match truthy_str ?o with _ => _ end] =>
          destruct (truthy_str o) eqn:?; cbn
      | |- context [match truthy_num ?o with _ => _ end] =>
          destruct (truthy_num o) eqn:?; cbn
      | |- context [match toISOString ?z with _ => _ end] =>
          destruct (toISOString z) eqn:?; cbn
      | |- context [match ?x with Some _ => _ | None => _ end] =>
          is_var x; destruct x; cbn
      end ].

Section Webhook.

(** An event whose metadata is complete, in a channel the host knows, for
    an order the host finds. *)
Variable env : Env.
Variable ev : IncomingCheckoutWebhook.
Variables oc ct pmc : string.
Variable ch : Channel.
Variable order : Order.

Hypothesis HorderCode :
  truthy_str (orderCode (ev_metadata (data_object ev))) = Some oc.
Hypothesis HchannelToken :
  truthy_str (channelToken (ev_metadata (data_object ev))) = Some ct.
Hypothesis HpaymentMethodCode :
  truthy_str (paymentMethodCode (ev_metadata (data_object ev))) = Some pmc.
Hypothesis Hchannel : forall h,
  env _ h (ChannelService_getChannelFromToken ct) = Resolved ch.
Hypothesis Horder : forall h,
  env _ h (OrderService_findOneByCode (adminContext ch) oc)
  = Resolved (Some order).

Section Complete.

Hypothesis Hstatus : status (data_object ev) = "complete".

Variables transitioned paid : Order.
Hypothesis Htransition : forall h,
  env _ h (OrderService_transitionToState (adminContext ch) (id order)
             "ArrangingPayment")
  = Resolved (inl transitioned).
Hypothesis Hpayment : forall h input,
  env _ h (OrderService_addPaymentToOrder (adminContext ch) (id order) input)
  = Resolved (inl paid).

(** C5, as the code has it.  On a complete event with valid metadata, when
    the host accepts the transition and the payment, the handler asks for
    the transition to [ArrangingPayment] unless the order is in that state,
    then adds a payment with the event's payment method and subscription
    id, and after that asks the history service for a note on the order. *)
Theorem handlePaymentCompleteEvent_settles :
  exists rest,
    fst (handlePaymentCompleteEvent toISOString ev env [])
    = settled oc ct pmc ch order transitioned paid
        (subscription (data_object ev)) ++ rest
    /\ Exists (is_history_entry (adminContext ch) (id order)) rest.
Proof.
  unfold settled, lookups. unfold_svc.
  rewrite HorderCode, HchannelToken; cbn.
  rewrite Hchannel; cbn. fold (adminContext ch).
  rewrite Horder; cbn.
  rewrite HpaymentMethodCode, Hstatus, String.eqb_refl; cbn.
  destruct (state order =? "ArrangingPayment")%string; cbn;
    try (rewrite Htransition; cbn); rewrite Hpayment; cbn;
    repeat next_branch env;
    eexists; (split; [reflexivity | find_history_entry]).
Qed.


End Complete.

End Webhook.

(** C9. A status other than [complete] ends the run without a transition, a
    payment or a request to the provider, and with valid metadata and an
    order that exists the handler logs and returns.  The four checks come
    before the test of the status: an event that fails one of them makes the
    handler throw, whatever its status. *)
Theorem handlePaymentCompleteEvent_checks_before_status
  (env : Env) (ev : IncomingCheckoutWebhook) :
  let eventData := data_object ev in
  let md := ev_metadata eventData in
  let run := handlePaymentCompleteEvent toISOString ev env [] in
  ((status eventData =? "complete")%string = false ->
     forallb quiet (fst run) = true
     /\ forall oc ct pmc ch order,
          truthy_str (orderCode md) = Some oc ->
          truthy_str (channelToken md) = Some ct ->
          truthy_str (paymentMethodCode md) = Some pmc ->
          (forall h, env _ h (ChannelService_getChannelFromToken ct)
                     = Resolved ch) ->
          (forall h, env _ h (OrderService_findOneByCode (adminContext ch) oc)
                     = Resolved (Some order)) ->
          run = (lookups oc ct ch (Some order)
                   ++ [Logged LInfo
                         ("Received incoming webhook with status "
                            ++ status eventData
                            ++ ", not processing this event.")%string true],
                 Returned tt))
  /\ (truthy_str (orderCode md) = None ->
      run = ([], Threw (Error
        "Incoming webhook is missing metadata.orderCode, cannot process this event")))
  /\ (forall oc,
      truthy_str (orderCode md) = Some oc ->
      truthy_str (channelToken md) = None ->
      run = ([], Threw (Error
        "Incoming webhook is missing metadata.channelToken, cannot process this event")))
  /\ (forall oc ct ch,
      truthy_str (orderCode md) = Some oc ->
      truthy_str (channelToken md) = Some ct ->
      (forall h, env _ h (ChannelService_getChannelFromToken ct)
                 = Resolved ch) ->
      (forall h, env _ h (OrderService_findOneByCode (adminContext ch) oc)
                 = Resolved None) ->
      run = (lookups oc ct ch None,
             Threw (Error ("Cannot find order with code " ++ oc)%string)))
  /\ (forall oc ct ch order,
      truthy_str (orderCode md) = Some oc ->
      truthy_str (channelToken md) = Some ct ->
      (forall h, env _ h (ChannelService_getChannelFromToken ct)
                 = Resolved ch) ->
      (forall h, env _ h (OrderService_findOneByCode (adminContext ch) oc)
                 = Resolved (Some order)) ->
      truthy_str (paymentMethodCode md) = None ->
      run = (lookups oc ct ch (Some order),
             Threw (Error
        "Incoming webhook is missing metadata.paymentMethodCode, cannot process this event")))
  /\ (truthy_str (orderCode md) = None
      \/ truthy_str (channelToken md) = None
      \/ truthy_str (paymentMethodCode md) = None ->
      exists e, snd run = Threw e).
Proof.
  unfold lookups. unfold_svc.
  set (eventData := data_object ev). set (md := ev_metadata eventData).
  split; [| split; [| split; [| split; [| split]]]].
  - intros Hstatus. rewrite Hstatus; cbn. split.
    + repeat next_branch env; reflexivity.
    + intros oc ct pmc ch order Hoc Hct Hpmc Hch Hord.
      rewrite Hoc, Hct; cbn. rewrite Hch; cbn.
      fold (adminContext ch). rewrite Hord; cbn.
      rewrite Hpmc; reflexivity.
  - intros Hoc. rewrite Hoc. reflexivity.
  - intros oc Hoc Hct. rewrite Hoc, Hct. reflexivity.
  - intros oc ct ch Hoc Hct Hch Hord.
    rewrite Hoc, Hct; cbn. rewrite Hch; cbn.
    fold (adminContext ch). rewrite Hord; reflexivity.
  - intros oc ct ch order Hoc Hct Hch Hord Hpmc.
    rewrite Hoc, Hct; cbn. rewrite Hch; cbn.
    fold (adminContext ch). rewrite Hord; cbn. rewrite Hpmc; reflexivity.
  - intros [Hoc | [Hct | Hpmc]].
    + rewrite Hoc; cbn; eauto.
    + rewrite Hct. destruct (truthy_str (orderCode md)); cbn; eauto.
    + rewrite Hpmc.
      destruct (truthy_str (orderCode md)); cbn; eauto.
      destruct (truthy_str (channelToken md)); cbn; eauto.
      repeat next_branch env; eauto.
Qed.

End Facts.

(** ** The theorems on the scripted shops *)

Import StripeSamples.

(** Without an active order, and with an active order without lines. *)
Lemma createLink_prechecks_throw_witness :
  snd (createStripeSubscriptionPaymentLink sample_stringify shopCtx
         "stripe-subscription" (scripted noOrder) [])
  = Threw (UserInputError "No active order for session")
  /\ snd (createStripeSubscriptionPaymentLink sample_stringify shopCtx
            "stripe-subscription" (scripted noLines) [])
     = Threw (UserInputError "Cannot create payment intent for empty order").
Proof.
  split.
  - destruct (createLink_prechecks_throw sample_stringify (scripted noOrder)
                shopCtx "stripe-subscription" None bareOrder
                (fun _ => eq_refl) (fun _ _ => eq_refl) (or_introl eq_refl))
      as (_ & _ & H & _).
    exact (H eq_refl).
  - destruct (createLink_prechecks_throw sample_stringify (scripted noLines)
                shopCtx "stripe-subscription" (Some bareOrder) emptyOrder
                (fun _ => eq_refl) (fun _ _ => eq_refl)
                (or_intror (or_introl eq_refl)))
      as (_ & _ & _ & H & _).
    apply H; [discriminate | reflexivity].
Defined.

Lemma createLink_returns_session_url_witness :
  createStripeSubscriptionPaymentLink sample_stringify shopCtx
    "stripe-subscription" (scripted checkout) []
  = ([ Called (ActiveOrderService_getActiveOrder shopCtx)
         (Resolved (Some bareOrder));
       Called (EntityHydrator_hydrate shopCtx bareOrder hydrate_relations)
         (Resolved fullOrder);
       Called (PaymentMethodService_findAll shopCtx) (Resolved [stripeMethod]);
       Called (Stripe_checkout_sessions_create "sk_test_1"
                 (checkout_params fullOrder
                    {| emailAddress := "hayden@example.com" |} shopCtx
                    "stripe-subscription" "https://shop.example/order"))
         (Resolved linkedSession) ],
     Returned "https://checkout.example/pay/cs_test_1").
Proof.
  exact (createLink_returns_session_url sample_stringify (scripted checkout)
           shopCtx "stripe-subscription" bareOrder fullOrder
           {| emailAddress := "hayden@example.com" |}
           [stripeMethod] stripeMethod "sk_test_1" "https://shop.example/order"
           linkedSession
           (fun _ => eq_refl) (fun _ => eq_refl) eq_refl eq_refl eq_refl
           (fun _ => eq_refl) eq_refl eq_refl eq_refl (fun _ _ => eq_refl)).
Defined.

Lemma handlePaymentCompleteEvent_settles_witness :
  exists rest,
    fst (handlePaymentCompleteEvent sample_toISOString
           (webhook "complete" (Some "stripe-subscription") None)
           (scripted checkout) [])
    = settledTrace ++ rest
    /\ Exists (is_history_entry adminCtx "7") rest.
Proof.
  exact (handlePaymentCompleteEvent_settles sample_toISOString
           (scripted checkout)
           (webhook "complete" (Some "stripe-subscription") None)
           "ORD7" "shop-token" "stripe-subscription" shopChannel fullOrder
           eq_refl eq_refl eq_refl (fun _ => eq_refl) (fun _ => eq_refl)
           eq_refl arrangingOrder settledOrder
           (fun _ => eq_refl) (fun _ _ => eq_refl)).
Defined.


(** A pending event is logged and dropped; a pending event without order
    code, or for an order the host does not find, throws. *)
Lemma handlePaymentCompleteEvent_checks_before_status_witness :
  handlePaymentCompleteEvent sample_toISOString
    (webhook "open" (Some "stripe-subscription") None) (scripted checkout) []
  = ([ Called (ChannelService_getChannelFromToken "shop-token")
         (Resolved shopChannel);
       Called (OrderService_findOneByCode adminCtx "ORD7")
         (Resolved (Some fullOrder));
       Logged LInfo
         "Received incoming webhook with status open, not processing this event."
         true ],
     Returned tt)
  /\ handlePaymentCompleteEvent sample_toISOString
       (webhook "open" (Some "stripe-subscription") None) (scripted noOrder) []
     = ([ Called (ChannelService_getChannelFromToken "shop-token")
            (Resolved shopChannel);
          Called (OrderService_findOneByCode adminCtx "ORD7") (Resolved None) ],
        Threw (Error "Cannot find order with code ORD7"))
  /\ handlePaymentCompleteEvent sample_toISOString
       (webhook "open" None None) (scripted checkout) []
     = ([ Called (ChannelService_getChannelFromToken "shop-token")
            (Resolved shopChannel);
          Called (OrderService_findOneByCode adminCtx "ORD7")
            (Resolved (Some fullOrder)) ],
        Threw (Error
          "Incoming webhook is missing metadata.paymentMethodCode, cannot process this event")).
Proof.
  split; [| split].
  - destruct (handlePaymentCompleteEvent_checks_before_status
                sample_toISOString (scripted checkout)
                (webhook "open" (Some "stripe-subscription") None))
      as (H & _).
    exact (proj2 (H eq_refl) "ORD7" "shop-token" "stripe-subscription"
             shopChannel fullOrder eq_refl eq_refl eq_refl
             (fun _ => eq_refl) (fun _ => eq_refl)).
  - destruct (handlePaymentCompleteEvent_checks_before_status
                sample_toISOString (scripted noOrder)
                (webhook "open" (Some "stripe-subscription") None))
      as (_ & _ & _ & H & _).
    exact (H "ORD7" "shop-token" shopChannel eq_refl eq_refl
             (fun _ => eq_refl) (fun _ => eq_refl)).
  - destruct (handlePaymentCompleteEvent_checks_before_status
                sample_toISOString (scripted checkout)
                (webhook "open" None None))
      as (_ & _ & _ & _ & H & _).
    exact (H "ORD7" "shop-token" shopChannel fullOrder eq_refl eq_refl
             (fun _ => eq_refl) (fun _ => eq_refl) eq_refl).
Defined.

(** C5, as it is stated, fails: the event is complete and its metadata
    valid, but the host declines the payment; the handler throws and no
    history entry is written. *)
Lemma declined_payment_leaves_no_history :
  snd (handlePaymentCompleteEvent sample_toISOString
         (webhook "complete" (Some "stripe-subscription") None)
         (hosted paymentDeclined) [])
  = Threw (Error
             "Error adding payment to order ORD7: The payment was declined")
  /\ existsb is_history_call
       (fst (handlePaymentCompleteEvent sample_toISOString
               (webhook "complete" (Some "stripe-subscription") None)
               (hosted paymentDeclined) []))
     = false.
Proof. split; reflexivity. Qed.


End StripeSubscriptionFacts.

(* ================================================================== *)
(** * Facts about the popularity plugin *)
(* ================================================================== *)

Module PopularityFacts.
Import Popularity.

Local Open Scope list_scope.
Local Open Scope N_scope.

(** Induction on a collection tree, with the children as a [Forall]. *)
Lemma Collection_tree_ind (P : Collection -> Prop)
  (Hnode : forall i ps s ks, Forall P ks -> P (mkCollection i ps s ks)) :
  forall c, P c.
Proof.
  fix IH 1. intros [i ps s ks]. apply Hnode.
  induction ks as [|k ks IHks]; constructor; [apply IH | exact IHks].
Qed.

(** ** Order volume *)

Lemma volume_cons token o os pid :
  volume token (o :: os) pid = orderVolume token pid o + volume token os pid.
Proof. reflexivity. Qed.

Lemma soldProducts_cons token o os :
  soldProducts token (o :: os)
  = (if counts token o then map line_productId (lines o) else [])
      ++ soldProducts token os.
Proof. reflexivity. Qed.

Lemma volume_filter token os pid :
  volume token (filter (counts token) os) pid = volume token os pid.
Proof.
  induction os as [|o os IH]; [reflexivity|].
  simpl filter. rewrite volume_cons. destruct (counts token o) eqn:E.
  - now rewrite volume_cons, IH.
  - rewrite IH. unfold orderVolume. now rewrite E.
Qed.

Lemma soldProducts_filter token os :
  soldProducts token (filter (counts token) os) = soldProducts token os.
Proof.
  induction os as [|o os IH]; [reflexivity|].
  simpl filter. rewrite soldProducts_cons. destruct (counts token o) eqn:E.
  - now rewrite soldProducts_cons, E, IH.
  - exact IH.
Qed.

Lemma volume_ext token os1 os2 pid :
  filter (counts token) os1 = filter (counts token) os2 ->
  volume token os1 pid = volume token os2 pid.
Proof.
  intros H. rewrite <- (volume_filter token os1), <- (volume_filter token os2).
  now rewrite H.
Qed.

Lemma maxVolume_ext token os1 os2 :
  filter (counts token) os1 = filter (counts token) os2 ->
  maxVolume token os1 = maxVolume token os2.
Proof.
  intros H. unfold maxVolume.
  rewrite <- (soldProducts_filter token os1).
  rewrite <- (soldProducts_filter token os2), H.
  induction (soldProducts token (filter (counts token) os2)) as [|p l IH]; cbn.
  - reflexivity.
  - now rewrite IH, (volume_ext token os1 os2 p H).
Qed.

Lemma productScore_ext token os1 os2 pid :
  filter (counts token) os1 = filter (counts token) os2 ->
  productScore token os1 pid = productScore token os2 pid.
Proof.
  intros H. unfold productScore.
  now rewrite (maxVolume_ext _ _ _ H), (volume_ext _ _ _ pid H).
Qed.

Lemma volume_never_sold token os pid :
  (forall o l, In o os -> settled o = true ->
               in_channel token (order_channels o) = true ->
               In l (lines o) -> line_productId l <> pid) ->
  volume token os pid = 0.
Proof.
  induction os as [|o os IH]; intros H; [reflexivity|].
  rewrite volume_cons.
  rewrite IH by (intros o' l Ho'; apply H; now right).
  rewrite N.add_0_r. unfold orderVolume.
  destruct (counts token o) eqn:E; [|reflexivity].
  apply andb_true_iff in E as [Hs Hc].
  assert (Hl : forall l, In l (lines o) -> line_productId l <> pid)
    by (intros l; apply H; [now left | exact Hs | exact Hc]).
  induction (lines o) as [|l ls IHl]; cbn; [reflexivity|].
  rewrite IHl by (intros l' Hl'; apply Hl; now right).
  unfold lineVolume.
  destruct (String.eqb_spec (line_productId l) pid) as [Heq|Hne].
  - exfalso. apply (Hl l); [now left | exact Heq].
  - reflexivity.
Qed.

Lemma scoreOf_setProductPopularity token os pid p :
  forall ps,
  find (fun q => (product_id q =? pid)%string) ps = Some p ->
  in_channel token (product_channels p) = true ->
  scoreOf (setProductPopularity token os ps) pid = productScore token os pid.
Proof.
  unfold scoreOf.
  induction ps as [|q ps IH]; intros Hfind Hchannel; [discriminate|].
  cbn [setProductPopularity map find] in *.
  assert (Hid : product_id (if in_channel token (product_channels q)
                            then with_score q
                                   (productScore token os (product_id q))
                            else q) = product_id q)
    by (destruct (in_channel token (product_channels q)); reflexivity).
  rewrite Hid.
  destruct (String.eqb_spec (product_id q) pid) as [Heq|Hne].
  - injection Hfind as ->. rewrite Hchannel. cbn. now rewrite Heq.
  - apply IH; assumption.
Qed.

(** C7. The scores the job computes for a channel are the same for two
    order histories that agree on the settled orders of that channel,
    whatever else they hold; so are the products and collections it
    stores. *)
Theorem scores_depend_on_channel_orders_only
  (token : string) (st1 st2 : Store)
  (Horders : filter (counts token) (orders st1)
             = filter (counts token) (orders st2))
  (Hproducts : products st1 = products st2)
  (Hcollections : collections st1 = collections st2) :
  (forall pid, productScore token (orders st1) pid
               = productScore token (orders st2) pid)
  /\ products (calculateScoreJob token st1)
     = products (calculateScoreJob token st2)
  /\ collections (calculateScoreJob token st1)
     = collections (calculateScoreJob token st2).
Proof.
  assert (Hps : setProductPopularity token (orders st1) (products st1)
                = setProductPopularity token (orders st2) (products st2)).
  { rewrite Hproducts. apply map_ext. intros p.
    now rewrite (productScore_ext _ _ _ (product_id p) Horders). }
  split; [intros pid; now apply productScore_ext|].
  cbn. rewrite Hps, Hcollections. split; reflexivity.
Qed.

(** ** The collection tree *)


Lemma sumN_cons x l : sumN (x :: l) = x + sumN l.
Proof. reflexivity. Qed.

Lemma sumN_app l1 l2 : sumN (l1 ++ l2) = sumN l1 + sumN l2.
Proof.
  induction l1 as [|x l1 IH]; [reflexivity|].
  rewrite <- app_comm_cons, !sumN_cons, IH. lia.
Qed.







(** ** The score, written out on the order lines *)

Lemma lines_volume pid ls :
  fold_right (fun l acc => lineVolume pid l + acc) 0 ls
  = sumN (map quantity
            (filter (fun l => (line_productId l =? pid)%string) ls)).
Proof.
  induction ls as [|l ls IH]; [reflexivity|].
  cbn [fold_right filter]. rewrite IH. unfold lineVolume.
  destruct (line_productId l =? pid)%string; reflexivity.
Qed.

Lemma volume_written_out token os pid :
  volume token os pid
  = sumN (map quantity
            (filter (fun l => (line_productId l =? pid)%string)
               (flat_map lines (filter (counts token) os)))).
Proof.
  induction os as [|o os IH]; [reflexivity|].
  rewrite volume_cons, IH. simpl filter. unfold orderVolume.
  destruct (counts token o); [|reflexivity].
  cbn [flat_map]. now rewrite filter_app, map_app, sumN_app, lines_volume.
Qed.

Lemma soldProducts_written_out token os :
  soldProducts token os
  = map line_productId (flat_map lines (filter (counts token) os)).
Proof.
  induction os as [|o os IH]; [reflexivity|].
  rewrite soldProducts_cons, IH. simpl filter.
  destruct (counts token o); [|reflexivity].
  cbn [flat_map]. now rewrite map_app.
Qed.

Lemma filter_absent pid (ls : list OrderLine) :
  ~ In pid (map line_productId ls) ->
  filter (fun l => (line_productId l =? pid)%string) ls = [].
Proof.
  induction ls as [|l ls IH]; intros Hnot; [reflexivity|].
  cbn [filter]. destruct (String.eqb_spec (line_productId l) pid) as [Heq|_].
  - exfalso. apply Hnot. left. exact Heq.
  - apply IH. intros Hin. apply Hnot. now right.
Qed.

Lemma fold_max_ge {A} (f : A -> N) (l : list A) (a : A) :
  In a l -> f a <= fold_right (fun x acc => N.max (f x) acc) 0 l.
Proof.
  induction l as [|b l IH]; [intros []|].
  cbn [fold_right]. intros [->|Hin]; [lia|]. specialize (IH Hin). lia.
Qed.

Lemma fold_max_attained {A} (f : A -> N) (l : list A) :
  fold_right (fun x acc => N.max (f x) acc) 0 l = 0
  \/ exists a, In a l
       /\ f a = fold_right (fun x acc => N.max (f x) acc) 0 l.
Proof.
  induction l as [|b l IH]; [now left|].
  cbn [fold_right].
  destruct (N.max_spec (f b)
              (fold_right (fun x acc => N.max (f x) acc) 0 l))
    as [[_ Hmax]|[_ Hmax]]; rewrite Hmax.
  - destruct IH as [H0|(a & Hin & Ha)]; [now left|].
    right. exists a. split; [now right | exact Ha].
  - right. exists b. split; [now left | reflexivity].
Qed.

Lemma volume_le_maxVolume token os q :
  volume token os q <= maxVolume token os.
Proof.
  destruct (in_dec string_dec q (soldProducts token os)) as [Hin|Hnot].
  - exact (fold_max_ge (volume token os) _ q Hin).
  - rewrite volume_written_out, filter_absent; [cbn; lia|].
    now rewrite <- soldProducts_written_out.
Qed.

Lemma maxVolume_attained token os :
  maxVolume token os = 0
  \/ exists q, volume token os q = maxVolume token os.
Proof.
  destruct (fold_max_attained (volume token os) (soldProducts token os))
    as [H0|(q & _ & Hq)]; [now left | right; now exists q].
Qed.

(** C1. For a product of the channel the job stores, in [popularityScore],
    the score of its order volume: with [items q] the number of items of
    product [q] on the lines of the settled orders of the channel, and
    [top] the highest such number (no product has more, and one has as
    many unless nothing was sold), the stored score is
    [items * 1000 / top], rounded down, and 0 when nothing was sold.  So
    the score is at most 1000, the best seller has 1000, and a product
    without a line in these orders has 0. *)
Theorem job_scores_products_of_channel
  (token : string) (st : Store) (p : Product)
  (Hp : In p (products st))
  (Hchannel : in_channel token (product_channels p) = true) :
  let sold :=
    flat_map lines
      (filter (fun o => settled o && in_channel token (order_channels o))
         (orders st)) in
  let items q :=
    fold_right N.add 0
      (map quantity
         (filter (fun l => (line_productId l =? q)%string) sold)) in
  let top := maxVolume token (orders st) in
  let score :=
    if top =? 0 then 0 else items (product_id p) * 1000 / top in
  let stored := products (calculateScoreJob token st) in
  (forall q, items q <= top)
  /\ (top = 0 \/ exists q, items q = top)
  /\ In (with_score p score) stored
  /\ (find (fun q => (product_id q =? product_id p)%string) (products st)
      = Some p ->
      scoreOf stored (product_id p) = score)
  /\ score <= 1000
  /\ (top <> 0 -> items (product_id p) = top -> score = 1000)
  /\ ((forall o l, In o (orders st) -> settled o = true ->
                   in_channel token (order_channels o) = true ->
                   In l (lines o) -> line_productId l <> product_id p) ->
      score = 0).
Proof.
  cbv beta zeta.
  assert (Hitems : forall q,
    fold_right N.add 0
      (map quantity
         (filter (fun l => (line_productId l =? q)%string)
            (flat_map lines
               (filter (fun o => settled o
                                 && in_channel token (order_channels o))
                  (orders st)))))
    = volume token (orders st) q)
    by (intros q; symmetry; apply volume_written_out).
  rewrite !Hitems.
  assert (Hle : forall q,
    fold_right N.add 0
      (map quantity
         (filter (fun l => (line_productId l =? q)%string)
            (flat_map lines
               (filter (fun o => settled o
                                 && in_channel token (order_channels o))
                  (orders st)))))
    <= maxVolume token (orders st))
    by (intros q; rewrite Hitems; apply volume_le_maxVolume).
  change (if maxVolume token (orders st) =? 0 then 0
          else volume token (orders st) (product_id p) * 1000
               / maxVolume token (orders st))
    with (productScore token (orders st) (product_id p)).
  split; [exact Hle|].
  split.
  { destruct (maxVolume_attained token (orders st)) as [H0|(q & Hq)];
      [now left | right; exists q; now rewrite Hitems]. }
  split.
  { unfold calculateScoreJob, setProductPopularity; cbn [products].
    apply in_map_iff. exists p. rewrite Hchannel.
    split; [reflexivity | exact Hp]. }
  split.
  { intros Hfind. unfold calculateScoreJob; cbn [products].
    now apply (scoreOf_setProductPopularity _ _ _ p). }
  pose proof (volume_le_maxVolume token (orders st) (product_id p)) as Hvol.
  unfold productScore, maxValue.
  destruct (N.eqb_spec (maxVolume token (orders st)) 0) as [Hz|Hnz].
  - repeat split; try lia.
  - assert (Hfull : maxVolume token (orders st) * 1000
                    / maxVolume token (orders st) = 1000)
      by (rewrite N.mul_comm; apply N.div_mul; exact Hnz).
    split; [| split].
    + rewrite <- Hfull at 2. apply N.Div0.div_le_mono.
      apply N.mul_le_mono_r. exact Hvol.
    + intros _ Htop. rewrite Htop. exact Hfull.
    + intros Hnone. rewrite (volume_never_sold _ _ _ Hnone).
      apply N.Div0.div_0_l.
Qed.


(** ** The controller and the queue *)

Lemma setProductPopularity_idem token os ps :
  setProductPopularity token os (setProductPopularity token os ps)
  = setProductPopularity token os ps.
Proof.
  unfold setProductPopularity. rewrite map_map. apply map_ext. intros p.
  destruct (in_channel token (product_channels p)) eqn:E.
  - cbn [with_score product_channels product_id]. now rewrite E.
  - now rewrite E.
Qed.

Lemma setCollectionPopularity_eq ps c :
  setCollectionPopularity ps c
  = {| collection_id := collection_id c;
       collection_products := collection_products c;
       collection_popularityScore :=
         ownScore ps c
         + sumN (map collection_popularityScore
                   (map (setCollectionPopularity ps) (children c)));
       children := map (setCollectionPopularity ps) (children c) |}.
Proof. destruct c; reflexivity. Qed.

Lemma children_setCollectionPopularity ps c :
  children (setCollectionPopularity ps c)
  = map (setCollectionPopularity ps) (children c).
Proof. destruct c; reflexivity. Qed.

Lemma ownScore_setCollectionPopularity ps c :
  ownScore ps (setCollectionPopularity ps c) = ownScore ps c.
Proof. destruct c; reflexivity. Qed.

Lemma setCollectionPopularity_idem ps :
  forall c, setCollectionPopularity ps (setCollectionPopularity ps c)
            = setCollectionPopularity ps c.
Proof.
  induction c as [i prods s ks IH] using Collection_tree_ind.
  set (c := mkCollection i prods s ks).
  assert (Hks : map (setCollectionPopularity ps)
                  (map (setCollectionPopularity ps) (children c))
                = map (setCollectionPopularity ps) (children c)).
  { rewrite map_map. apply map_ext_in. intros k Hk.
    rewrite Forall_forall in IH. now apply IH. }
  rewrite (setCollectionPopularity_eq ps (setCollectionPopularity ps c)).
  rewrite children_setCollectionPopularity, ownScore_setCollectionPopularity.
  rewrite Hks. rewrite (setCollectionPopularity_eq ps c) at 3.
  reflexivity.
Qed.

Lemma calculateScoreJob_up_to_date token st :
  up_to_date token (calculateScoreJob token st).
Proof.
  unfold up_to_date, calculateScoreJob; cbn [orders products collections].
  now rewrite setProductPopularity_idem, setCollectionPopularity_idem.
Qed.

(** C3. The handler of [GET /order-by-popularity/calculate-scores/:token]
    is one call of [addScoreCalculatingJobToQueue] with the token of the
    path and the request context: it appends one job and leaves orders,
    products and collections as they are.  The scores are computed when the
    worker of the queue takes the job. *)
Theorem calculateScores_only_enqueues
  (ctx : RequestContext) (token : string) (s : State) :
  calculateScores ctx token s = addScoreCalculatingJobToQueue token ctx s
  /\ store (snd (calculateScores ctx token s)) = store s
  /\ queue (snd (calculateScores ctx token s))
     = queue s ++ [ {| job_channelToken := token; job_ctx := ctx |} ]
  /\ (queue s = [] ->
      processNextJob (snd (calculateScores ctx token s))
      = {| store := calculateScoreJob token (store s); queue := [] |}).
Proof.
  repeat split.
  intros Hq. unfold processNextJob; cbn. rewrite Hq. reflexivity.
Qed.

(** ** The end-to-end test, replayed *)

Import PopularitySamples.

(** "Calculated popularity per product": 1000, 0 and 800. *)
Example e2e_product_scores :
  map (scoreOf (products (store e2eScored))) ["T_1"; "T_2"; "T_3"]
  = [1000; 0; 800].
Proof. vm_compute. reflexivity. Qed.

(** "Calculated popularity per collection" and "for parent collections":
    the root T_1 has 2800, T_2 and T_3 have 1000, T_4 has 0, T_5 has 800. *)
Example e2e_collection_scores :
  map (fun c => (collection_id c, collection_popularityScore c))
      (subtree (collections (store e2eScored)))
  = [("T_1", 2800); ("T_2", 1000); ("T_3", 1000); ("T_4", 0); ("T_5", 800)]%string.
Proof. vm_compute. reflexivity. Qed.

(** Nothing is computed while the request is handled. *)
Example e2e_request_only_queues :
  step (HttpCalculateScores superadmin defaultChannel)
    {| store := e2eStore; queue := [] |}
  = {| store := e2eStore;
       queue := [ {| job_channelToken := defaultChannel;
                     job_ctx := superadmin |} ] |}.
Proof. reflexivity. Qed.

(** The second seller of the test, 8 items against 10: 800. *)
Lemma job_scores_products_of_channel_witness :
  In (with_score (newProduct "T_3") 800)
     (products (calculateScoreJob defaultChannel e2eStore))
  /\ scoreOf (products (calculateScoreJob defaultChannel e2eStore)) "T_3"
     = 800.
Proof.
  destruct (job_scores_products_of_channel defaultChannel e2eStore
              (newProduct "T_3")
              (or_intror (or_intror (or_introl eq_refl))) eq_refl)
    as (_ & _ & Hin & Hstored & _).
  split; [exact Hin | exact (Hstored eq_refl)].
Defined.


Lemma calculateScores_only_enqueues_witness :
  processNextJob (snd (calculateScores superadmin defaultChannel
                         {| store := e2eStore; queue := [] |}))
  = {| store := calculateScoreJob defaultChannel e2eStore; queue := [] |}.
Proof.
  exact (proj2 (proj2 (proj2
           (calculateScores_only_enqueues superadmin defaultChannel
              {| store := e2eStore; queue := [] |}))) eq_refl).
Defined.

Lemma scores_depend_on_channel_orders_only_witness :
  products (calculateScoreJob defaultChannel e2eStoreWithOtherChannel)
  = products (calculateScoreJob defaultChannel e2eStore).
Proof.
  exact (proj1 (proj2
           (scores_depend_on_channel_orders_only defaultChannel
              e2eStoreWithOtherChannel e2eStore eq_refl eq_refl eq_refl))).
Defined.

End PopularityFacts.

(* ================================================================== *)
(** * More facts about the Stripe subscription service *)
(* ================================================================== *)

Module StripeSubscriptionMore.
Import StripeSubscription StripeSubscriptionFacts StripeSamples.

Local Open Scope list_scope.

#[local] Arguments String.append : simpl never.
#[local] Arguments String.eqb : simpl never.

(** ** The private helpers *)

(** X1. [getPaymentMethodByCode] asks the host once for all payment
    methods.  A method it returns is one of the listed methods and has the
    requested code; it returns nothing only when no listed method has the
    code; it throws only what the host rejects the listing with. *)
Theorem getPaymentMethodByCode_lookup
  (env : Env) (ctx : RequestContext) (paymentMethodCode : string)
  (t0 : Trace) :
  let asked := env _ t0 (PaymentMethodService_findAll ctx) in
  let run := getPaymentMethodByCode ctx paymentMethodCode env t0 in
  fst run = t0 ++ [Called (PaymentMethodService_findAll ctx) asked]
  /\ (forall pm, snd run = Returned (Some pm) ->
        pm_code pm = paymentMethodCode
        /\ exists items, asked = Resolved items /\ In pm items)
  /\ (snd run = Returned None ->
        exists items, asked = Resolved items
          /\ forall pm, In pm items -> pm_code pm <> paymentMethodCode)
  /\ (forall e, snd run = Threw e -> asked = Rejected e).
Proof.
  unfold_svc.
  destruct (env _ t0 (PaymentMethodService_findAll ctx)) as [items|e0]; cbn.
  - repeat split; try discriminate.
    + injection H as H. apply find_some in H as [_ H].
      now apply String.eqb_eq in H.
    + injection H as H. apply find_some in H as [H _]. eauto.
    + intros H. injection H as H. exists items. split; [reflexivity|].
      intros pm Hin Hcode.
      apply (find_none _ _ H) in Hin. rewrite Hcode, String.eqb_refl in Hin.
      discriminate.
  - repeat split; try discriminate. intros e H. now injection H as ->.
Qed.

(** X2. A configuration [getStripeHandler] returns comes from the first
    payment method with the requested code: its key and its redirect URL
    are the values of that method's [apiKey] and [redirectUrl] arguments
    and are not empty, the labels are the optional arguments; the host was
    asked once, nothing was logged. *)
Theorem getStripeHandler_returns_configured
  (env : Env) (ctx : RequestContext) (paymentMethodCode : string)
  (t0 : Trace) (config : StripeHandlerConfig)
  (Hreturned :
     snd (getStripeHandler ctx paymentMethodCode env t0) = Returned config) :
  exists items pm,
    env _ t0 (PaymentMethodService_findAll ctx) = Resolved items
    /\ find (fun m => (pm_code m =? paymentMethodCode)%string) items = Some pm
    /\ pm_code pm = paymentMethodCode
    /\ arg_value pm "apiKey" = Some (stripeClient config)
    /\ arg_value pm "redirectUrl" = Some (redirectUrl config)
    /\ stripeClient config <> ""%string
    /\ redirectUrl config <> ""%string
    /\ downpaymentLabel config = arg_value pm "downpaymentLabel"
    /\ prorationLabel config = arg_value pm "prorationLabel"
    /\ fst (getStripeHandler ctx paymentMethodCode env t0)
       = t0 ++ [Called (PaymentMethodService_findAll ctx) (Resolved items)].
Proof.
  revert Hreturned. unfold_svc.
  destruct (env _ t0 (PaymentMethodService_findAll ctx)) as [items|e0]; cbn;
    [|discriminate].
  destruct (find _ items) as [pm|] eqn:Hfind; cbn; [|discriminate].
  unfold truthy_str.
  destruct (arg_value pm "apiKey") as [k|] eqn:Hk; cbn; [|discriminate].
  destruct (String.eqb_spec k "") as [->|Hk']; cbn; [discriminate|].
  destruct (arg_value pm "redirectUrl") as [u|] eqn:Hu; cbn; [|discriminate].
  destruct (String.eqb_spec u "") as [->|Hu']; cbn; [discriminate|].
  intros H. injection H as <-. exists items, pm. cbn.
  repeat split; try assumption; try reflexivity.
  apply find_some in Hfind as [_ H]. now apply String.eqb_eq in H.
Qed.

Lemma find_code_none (code : string) (items : list PaymentMethod) :
  (forall pm, In pm items -> pm_code pm <> code) ->
  find (fun pm => (pm_code pm =? code)%string) items = None.
Proof.
  intros Hnone. destruct (find _ items) as [pm|] eqn:Hfind; [|reflexivity].
  apply find_some in Hfind as [Hin Hcode]. apply String.eqb_eq in Hcode.
  now destruct (Hnone pm Hin).
Qed.

(** X3. Without a payment method of the requested code [getStripeHandler]
    throws the [UserInputError] that names the code, right after the
    listing. *)
Theorem getStripeHandler_unknown_method
  (env : Env) (ctx : RequestContext) (paymentMethodCode : string)
  (t0 : Trace) (items : list PaymentMethod)
  (Hitems : env _ t0 (PaymentMethodService_findAll ctx) = Resolved items)
  (Hnone : forall pm, In pm items -> pm_code pm <> paymentMethodCode) :
  getStripeHandler ctx paymentMethodCode env t0
  = (t0 ++ [Called (PaymentMethodService_findAll ctx) (Resolved items)],
     Threw (UserInputError
              ("No paymentMethod found with code " ++ paymentMethodCode)%string)).
Proof.
  unfold_svc. rewrite Hitems; cbn.
  now rewrite (find_code_none _ _ Hnone).
Qed.

(** X4. When the payment method of the requested code has no [apiKey] or no
    [redirectUrl] argument, or an empty one, [getStripeHandler] logs a
    warning and throws the [UserInputError] that names the method. *)
Theorem getStripeHandler_not_configured
  (env : Env) (ctx : RequestContext) (paymentMethodCode : string)
  (t0 : Trace) (items : list PaymentMethod) (pm : PaymentMethod)
  (Hitems : env _ t0 (PaymentMethodService_findAll ctx) = Resolved items)
  (Hfind : find (fun m => (pm_code m =? paymentMethodCode)%string) items
           = Some pm)
  (Hmissing : arg_value pm "apiKey" = None
              \/ arg_value pm "apiKey" = Some ""%string
              \/ arg_value pm "redirectUrl" = None
              \/ arg_value pm "redirectUrl" = Some ""%string) :
  getStripeHandler ctx paymentMethodCode env t0
  = (t0 ++ [ Called (PaymentMethodService_findAll ctx) (Resolved items);
             Logged LWarn
               ("CreatePaymentIntent failed, because no apiKey or redirect is configured for "
                  ++ paymentMethodCode)%string true ],
     Threw (UserInputError
              ("Paymentmethod " ++ paymentMethodCode
                 ++ " has no apiKey or redirectUrl configured")%string)).
Proof.
  assert (Hcode : pm_code pm = paymentMethodCode).
  { apply find_some in Hfind as [_ H]. now apply String.eqb_eq in H. }
  unfold_svc. rewrite Hitems; cbn. rewrite Hfind; cbn. rewrite Hcode.
  assert (Hfalsy : truthy_str (arg_value pm "apiKey") = None
                   \/ truthy_str (arg_value pm "redirectUrl") = None).
  { destruct Hmissing as [H|[H|[H|H]]]; rewrite H; cbn; auto. }
  destruct (truthy_str (arg_value pm "apiKey")) as [k|];
    destruct (truthy_str (arg_value pm "redirectUrl")) as [u|]; cbn;
    try rewrite <- app_assoc; try reflexivity.
  destruct Hfalsy; discriminate.
Qed.

(** ** [createStripeSubscriptionPaymentLink] on every path *)

(** Run a method to the end: split on every answer of the environment and
    on every test the method makes. *)
Ltac run_paths env :=
  repeat first
    [ next_reply env
    | match goal with
      | |- context [match find ?f ?l with _ => _ end] =>
          destruct (find f l) eqn:?; cbn
      | |- context [match truthy_str ?o with _ => _ end] =>
          destruct (truthy_str o) eqn:?; cbn
      | |- context [match truthy_num ?o with _ => _ end] =>
          destruct (truthy_num o) eqn:?; cbn
      | |- context [has_length ?l] =>
          destruct (has_length l) eqn:?; cbn
      | |- context [match customer ?o with _ => _ end] =>
          destruct (customer o) eqn:?; cbn
      | |- context [(?a =? ?b)%string] =>
          destruct (a =? b)%string eqn:?; cbn
      | |- context [match ?x with Some _ => _ | None => _ end] =>
          is_var x; destruct x; cbn
      | |- context [match ?x with inl _ => _ | inr _ => _ end] =>
          is_var x; destruct x; cbn
      end ].

(** Go through the events of a trace that is written out. *)
Ltac each_event H :=
  cbn in H;
  repeat (destruct H as [<- | H]; [| try contradiction]);
  try contradiction.

Section Link.

Variable JSON_stringify : Session -> string.

(** X5. Whatever the host and the provider answer,
    [createStripeSubscriptionPaymentLink] never asks for a state transition
    or a payment, never writes order history and never updates a
    subscription; it asks for at most one checkout session; and every call
    to the host is made with the request context it was given. *)
Theorem createLink_only_reads_the_order
  (env : Env) (ctx : RequestContext) (paymentMethodCode : string) :
  let t :=
    fst (createStripeSubscriptionPaymentLink JSON_stringify ctx
           paymentMethodCode env []) in
  forallb (fun e => negb (is_order_mutation e)
                    && negb (is_history_call e)
                    && negb (is_subscription_update e)) t = true
  /\ length (filter is_session_create t) <= 1
  /\ (forall e c, In e t -> event_ctx e = Some c -> c = ctx).
Proof.
  unfold_svc. run_paths env.
  all: repeat split; try reflexivity; try (cbn; lia).
  all: intros ev1 cx Hin Hcx; each_event Hin; cbn in Hcx;
    solve [discriminate | now injection Hcx].
Qed.

(** X6. An exception of [createStripeSubscriptionPaymentLink] is one of its
    own seven errors, or it is what a call to the host or the provider was
    rejected with, passed on as it is; that call is then the last event. *)
Theorem createLink_exceptions
  (env : Env) (ctx : RequestContext) (paymentMethodCode : string) (e : Exn)
  (Hthrew :
     snd (createStripeSubscriptionPaymentLink JSON_stringify ctx
            paymentMethodCode env []) = Threw e) :
  In e [ UserInputError "No active order for session";
         UserInputError "Cannot create payment intent for empty order";
         UserInputError
           "Cannot create payment intent for order without customer";
         UserInputError
           "Cannot create payment intent for order without shippingMethod";
         UserInputError
           ("No paymentMethod found with code " ++ paymentMethodCode)%string;
         UserInputError
           ("Paymentmethod " ++ paymentMethodCode
              ++ " has no apiKey or redirectUrl configured")%string;
         Error "Failed to create payment link" ]
  \/ exists X (c : Call X),
       last_event
         (fst (createStripeSubscriptionPaymentLink JSON_stringify ctx
                 paymentMethodCode env []))
       = Some (Called c (Rejected e)).
Proof.
  revert Hthrew. unfold_svc. run_paths env.
  all: intros Hthrew; try discriminate; injection Hthrew as <-.
  all: try (right; do 2 eexists; reflexivity).
  all: try (left; cbn; tauto).
  all: match goal with
       | H : find _ _ = Some ?pm |- _ =>
           apply find_some in H as [_ H]; apply String.eqb_eq in H;
           rewrite H
       end; left; cbn; tauto.
Qed.

(** X7. With an order that passes the checks but no payment method of the
    given code, the method throws the [UserInputError] of
    [getStripeHandler] after the listing; the provider is not contacted. *)
Theorem createLink_unknown_method
  (env : Env) (ctx : RequestContext) (paymentMethodCode : string)
  (active hydrated : Order) (cust : Customer)
  (paymentMethods : list PaymentMethod)
  (Hactive : forall h,
      env _ h (ActiveOrderService_getActiveOrder ctx) = Resolved (Some active))
  (Hhydrate : forall h,
      env _ h (EntityHydrator_hydrate ctx active hydrate_relations)
      = Resolved hydrated)
  (Hlines : has_length (lines hydrated) = true)
  (Hcustomer : customer hydrated = Some cust)
  (Hshipping : has_length (shippingLines hydrated) = true)
  (Hmethods : forall h,
      env _ h (PaymentMethodService_findAll ctx) = Resolved paymentMethods)
  (Hnone : forall pm, In pm paymentMethods ->
                      pm_code pm <> paymentMethodCode) :
  createStripeSubscriptionPaymentLink JSON_stringify ctx paymentMethodCode
    env []
  = ([ Called (ActiveOrderService_getActiveOrder ctx)
         (Resolved (Some active));
       Called (EntityHydrator_hydrate ctx active hydrate_relations)
         (Resolved hydrated);
       Called (PaymentMethodService_findAll ctx) (Resolved paymentMethods) ],
     Threw (UserInputError
              ("No paymentMethod found with code " ++ paymentMethodCode)%string)).
Proof.
  unfold_svc. rewrite Hactive; cbn. rewrite Hhydrate; cbn.
  rewrite Hlines, Hcustomer, Hshipping; cbn.
  rewrite Hmethods; cbn. now rewrite (find_code_none _ _ Hnone).
Qed.

End Link.

(** ** [handlePaymentCompleteEvent] on every path *)

Lemma guarded_by_sound (opens guarded : Event -> bool) :
  forall t opened,
    guarded_by opens guarded opened t = true ->
    forall t1 e t2, t = t1 ++ e :: t2 -> guarded e = true ->
    opened = true \/ existsb opens t1 = true.
Proof.
  induction t as [|x t IH]; intros opened Hscan t1 e t2 Hsplit Hg.
  - destruct t1; discriminate.
  - cbn in Hscan. apply andb_true_iff in Hscan as [Hx Hrest].
    destruct t1 as [|y t1]; cbn in Hsplit; injection Hsplit as -> ->.
    + rewrite Hg in Hx. now left.
    + destruct (IH _ Hrest t1 e t2 eq_refl Hg) as [H|H].
      * apply orb_true_iff in H as [H|H]; [now left|].
        right. cbn. now rewrite H.
      * right. cbn. rewrite H. apply orb_true_r.
Qed.

Section Handler.

Variable toISOString : Z -> option string.

(** X8. Whatever the host and the provider answer and whatever the event
    holds, [handlePaymentCompleteEvent] creates no checkout session, asks
    for at most one transition, one payment and one update of the
    subscription, and writes order history or updates the subscription only
    after the host has accepted the payment. *)
Theorem handlePaymentCompleteEvent_payment_first
  (env : Env) (ev : IncomingCheckoutWebhook) :
  let t := fst (handlePaymentCompleteEvent toISOString ev env []) in
  forallb (fun e => negb (is_session_create e)) t = true
  /\ length (filter is_transition t) <= 1
  /\ length (filter is_payment t) <= 1
  /\ length (filter is_subscription_update t) <= 1
  /\ (forall t1 e t2, t = t1 ++ e :: t2 ->
        is_history_call e || is_subscription_update e = true ->
        existsb is_accepted_payment t1 = true).
Proof.
  cbv zeta.
  assert (Hscan :
    let t := fst (handlePaymentCompleteEvent toISOString ev env []) in
    forallb (fun e => negb (is_session_create e)) t = true
    /\ length (filter is_transition t) <= 1
    /\ length (filter is_payment t) <= 1
    /\ length (filter is_subscription_update t) <= 1
    /\ guarded_by is_accepted_payment
         (fun e => is_history_call e || is_subscription_update e) false t
       = true).
  { unfold_svc. run_paths env.
    all: repeat match goal with
           | |- context [match toISOString ?z with _ => _ end] =>
               destruct (toISOString z) eqn:?; cbn; run_paths env
           end.
    all: repeat split; try reflexivity; try (cbn; lia).
    all: cbn; repeat match goal with
                | H : (?a =? ?b)%string = _ |- _ => rewrite H
                end; reflexivity. }
  destruct Hscan as (H1 & H2 & H3 & H4 & H5).
  repeat split; try assumption.
  intros t1 e t2 Hsplit Hg.
  destruct (guarded_by_sound _ _ _ _ H5 t1 e t2 Hsplit Hg) as [H|H];
    [discriminate | exact H].
Qed.

Lemma handlePaymentCompleteEvent_events
  (env : Env) (ev : IncomingCheckoutWebhook) :
  let md := ev_metadata (data_object ev) in
  let t := fst (handlePaymentCompleteEvent toISOString ev env []) in
  forall e, In e t ->
    (forall c, event_ctx e = Some c ->
       exists ct ch,
         truthy_str (channelToken md) = Some ct
         /\ hd_error t
            = Some (Called (ChannelService_getChannelFromToken ct)
                      (Resolved ch))
         /\ c = adminContext ch)
    /\ (forall orderId, event_orderId e = Some orderId ->
         exists c oc order,
           truthy_str (orderCode md) = Some oc
           /\ nth_error t 1
              = Some (Called (OrderService_findOneByCode c oc)
                        (Resolved (Some order)))
           /\ orderId = id order)
    /\ (forall type isPublic, history_shape e = Some (type, isPublic) ->
         type = ORDER_NOTE /\ isPublic = false).
Proof.
  unfold_svc. run_paths env.
  all: repeat match goal with
         | |- context [match toISOString ?z with _ => _ end] =>
             destruct (toISOString z) eqn:?; cbn; run_paths env
         end.
  all: intros ev1 Hin; each_event Hin.
  all: (split; [| split]); intros;
    match goal with
    | H : event_ctx _ = _ |- _ => cbn in H
    | H : event_orderId _ = _ |- _ => cbn in H
    | H : history_shape _ = _ |- _ => cbn in H
    end;
    try discriminate;
    match goal with
    | H : Some _ = Some _ |- _ => inversion H; subst; clear H
    end;
    first
      [ split; reflexivity
      | do 2 eexists; repeat split; reflexivity
      | do 3 eexists; repeat split; reflexivity ].
Qed.

(** X9. Every call to the host that [handlePaymentCompleteEvent] makes with
    a request context is made with the admin context of [createContext] for
    the channel the host resolved the event's [channelToken] to, which is
    the first call of the run. *)
Theorem handlePaymentCompleteEvent_admin_context
  (env : Env) (ev : IncomingCheckoutWebhook) (e : Event) (c : RequestContext)
  (Hin : In e (fst (handlePaymentCompleteEvent toISOString ev env [])))
  (Hctx : event_ctx e = Some c) :
  exists ct ch,
    truthy_str (channelToken (ev_metadata (data_object ev))) = Some ct
    /\ hd_error (fst (handlePaymentCompleteEvent toISOString ev env []))
       = Some (Called (ChannelService_getChannelFromToken ct) (Resolved ch))
    /\ c = adminContext ch
    /\ apiType c = "admin"%string /\ isAuthorized c = true
    /\ authorizedAsOwnerOnly c = false /\ channel c = ch.
Proof.
  destruct (proj1 (handlePaymentCompleteEvent_events env ev e Hin) c Hctx)
    as (ct & ch & Hct & Hhd & ->).
  exists ct, ch. repeat split; assumption.
Qed.

(** X10. A transition, a payment or a history entry that
    [handlePaymentCompleteEvent] asks for names the order the host found
    under the event's [orderCode], and every history entry is an
    [ORDER_NOTE] that is not public. *)
Theorem handlePaymentCompleteEvent_touches_found_order
  (env : Env) (ev : IncomingCheckoutWebhook) (e : Event)
  (Hin : In e (fst (handlePaymentCompleteEvent toISOString ev env []))) :
  (forall orderId, event_orderId e = Some orderId ->
     exists c oc order,
       truthy_str (orderCode (ev_metadata (data_object ev))) = Some oc
       /\ nth_error (fst (handlePaymentCompleteEvent toISOString ev env [])) 1
          = Some (Called (OrderService_findOneByCode c oc)
                    (Resolved (Some order)))
       /\ orderId = id order)
  /\ (forall type isPublic, history_shape e = Some (type, isPublic) ->
       type = ORDER_NOTE /\ isPublic = false).
Proof.
  exact (proj2 (handlePaymentCompleteEvent_events env ev e Hin)).
Qed.

(** X11. When the host rejects the lookup of the channel or of the order,
    the handler throws that rejection and has done nothing else. *)
Theorem handlePaymentCompleteEvent_lookup_rejected
  (env : Env) (ev : IncomingCheckoutWebhook) (oc ct : string) (e : Exn)
  (HorderCode :
     truthy_str (orderCode (ev_metadata (data_object ev))) = Some oc)
  (HchannelToken :
     truthy_str (channelToken (ev_metadata (data_object ev))) = Some ct) :
  (env _ [] (ChannelService_getChannelFromToken ct) = Rejected e ->
   handlePaymentCompleteEvent toISOString ev env []
   = ([Called (ChannelService_getChannelFromToken ct) (Rejected e)],
      Threw e))
  /\ (forall ch,
      env _ [] (ChannelService_getChannelFromToken ct) = Resolved ch ->
      env _ [Called (ChannelService_getChannelFromToken ct) (Resolved ch)]
        (OrderService_findOneByCode (adminContext ch) oc) = Rejected e ->
      handlePaymentCompleteEvent toISOString ev env []
      = ([ Called (ChannelService_getChannelFromToken ct) (Resolved ch);
           Called (OrderService_findOneByCode (adminContext ch) oc)
             (Rejected e) ],
         Threw e)).
Proof.
  unfold_svc. rewrite HorderCode, HchannelToken; cbn. split.
  - intros Hch. rewrite Hch. reflexivity.
  - intros ch Hch Hord. rewrite Hch; cbn. fold (adminContext ch).
    rewrite Hord. reflexivity.
Qed.

(** X17. The two methods together: a complete event that carries the
    metadata [createStripeSubscriptionPaymentLink] puts on its session
    makes the handler look the order up by the code of the order of the
    checkout, in the channel of the checkout's request, and add a payment
    with the checkout's payment method; as that metadata has no [endDate],
    the run ends with the note that the end date was not set and without a
    call to the provider. *)
Theorem handlePaymentCompleteEvent_after_createLink
  (env : Env) (ev : IncomingCheckoutWebhook)
  (checkedOut : Order) (cust : Customer) (ctx : RequestContext)
  (paymentMethodCode redirect : string)
  (ch : Channel) (found transitioned paid : Order)
  (Hmeta : ev_metadata (data_object ev)
           = echoed (metadata (checkout_params checkedOut cust ctx
                                 paymentMethodCode redirect)))
  (Hstatus : status (data_object ev) = "complete"%string)
  (Hcode : code checkedOut <> ""%string)
  (Htoken : token (channel ctx) <> ""%string)
  (Hmethod : paymentMethodCode <> ""%string)
  (Hchannel : forall h,
     env _ h (ChannelService_getChannelFromToken (token (channel ctx)))
     = Resolved ch)
  (Horder : forall h,
     env _ h (OrderService_findOneByCode (adminContext ch) (code checkedOut))
     = Resolved (Some found))
  (Htransition : forall h,
     env _ h (OrderService_transitionToState (adminContext ch) (id found)
                "ArrangingPayment")
     = Resolved (inl transitioned))
  (Hpayment : forall h input,
     env _ h (OrderService_addPaymentToOrder (adminContext ch) (id found)
                input)
     = Resolved (inl paid))
  (Hnote : forall h msg,
     env _ h (HistoryService_createHistoryEntryForOrder (adminContext ch)
                (id found) ORDER_NOTE msg false) = Resolved tt) :
  let run := handlePaymentCompleteEvent toISOString ev env [] in
  run
  = (settled (code checkedOut) (token (channel ctx)) paymentMethodCode ch
       found transitioned paid (subscription (data_object ev))
       ++ [ Called (HistoryService_createHistoryEntryForOrder
                      (adminContext ch) (id found) ORDER_NOTE
                      ("!! Failed to set subscription end date for subscription "
                         ++ subscription (data_object ev) ++ "!")%string
                      false) (Resolved tt);
            Logged LError
              ("Incoming webhook is missing metadata.endDate, failed to set end date for subscription "
                 ++ subscription (data_object ev))%string true ],
     Returned tt)
  /\ forallb (fun e => negb (is_provider_call e)) (fst run) = true.
Proof.
  apply String.eqb_neq in Hcode, Htoken, Hmethod.
  assert (Hrun :
    handlePaymentCompleteEvent toISOString ev env []
    = (settled (code checkedOut) (token (channel ctx)) paymentMethodCode ch
         found transitioned paid (subscription (data_object ev))
         ++ [ Called (HistoryService_createHistoryEntryForOrder
                        (adminContext ch) (id found) ORDER_NOTE
                        ("!! Failed to set subscription end date for subscription "
                           ++ subscription (data_object ev) ++ "!")%string
                        false) (Resolved tt);
              Logged LError
                ("Incoming webhook is missing metadata.endDate, failed to set end date for subscription "
                   ++ subscription (data_object ev))%string true ],
       Returned tt)).
  { unfold settled, lookups. unfold_svc. rewrite Hmeta. unfold truthy_str.
    cbn. rewrite Hcode, Htoken; cbn.
    rewrite Hchannel; cbn. fold (adminContext ch).
    rewrite Horder; cbn. rewrite Hmethod, Hstatus, String.eqb_refl; cbn.
    destruct (state found =? "ArrangingPayment")%string; cbn;
      try (rewrite Htransition; cbn); rewrite Hpayment; cbn;
      rewrite Hnote; reflexivity. }
  cbv zeta. rewrite Hrun. split; [reflexivity|].
  unfold settled, lookups.
  destruct (state found =? "ArrangingPayment")%string; reflexivity.
Qed.

Section Found.

(** An event with complete metadata and status [complete], in a channel
    the host knows, for an order the host finds. *)
Variable env : Env.
Variable ev : IncomingCheckoutWebhook.
Variables oc ct pmc : string.
Variable ch : Channel.
Variable order : Order.

Hypothesis HorderCode :
  truthy_str (orderCode (ev_metadata (data_object ev))) = Some oc.
Hypothesis HchannelToken :
  truthy_str (channelToken (ev_metadata (data_object ev))) = Some ct.
Hypothesis HpaymentMethodCode :
  truthy_str (paymentMethodCode (ev_metadata (data_object ev))) = Some pmc.
Hypothesis Hchannel : forall h,
  env _ h (ChannelService_getChannelFromToken ct) = Resolved ch.
Hypothesis Horder : forall h,
  env _ h (OrderService_findOneByCode (adminContext ch) oc)
  = Resolved (Some order).
Hypothesis Hstatus : status (data_object ev) = "complete"%string.

(** X12. A refused transition stops the handler only when the host's
    answer is an instance of the [OrderStateTransitionError] class the
    service imports: the handler then throws an [Error] that names the
    order, both states and the host's message, and adds no payment.  Any
    other error result is not recognised: the handler goes on and asks for
    the payment. *)
Theorem handlePaymentCompleteEvent_transition_error
  (Hstate : (state order =? "ArrangingPayment")%string = false) :
  let run := handlePaymentCompleteEvent toISOString ev env [] in
  let transition :=
    OrderService_transitionToState (adminContext ch) (id order)
      "ArrangingPayment" in
  (forall err : OrderStateTransitionError,
     (forall h, env _ h transition = Resolved (inr (inl err))) ->
     run
     = (lookups oc ct ch (Some order)
          ++ [Called transition (Resolved (inr (inl err)))],
        Threw (Error
                 ("Error transitioning order " ++ code order ++ " from "
                    ++ fromState err ++ " to " ++ toState err ++ ": "
                    ++ transitionError_message err)%string)))
  /\ (forall other : ErrorResult,
       (forall h, env _ h transition = Resolved (inr (inr other))) ->
       exists reply rest,
         fst run
         = lookups oc ct ch (Some order)
             ++ [ Called transition (Resolved (inr (inr other)));
                  Called (OrderService_addPaymentToOrder (adminContext ch)
                            (id order)
                            {| method := pmc;
                               metadata_subscriptionId :=
                                 subscription (data_object ev) |}) reply ]
             ++ rest).
Proof.
  unfold lookups. unfold_svc.
  rewrite HorderCode, HchannelToken; cbn.
  rewrite Hchannel; cbn. fold (adminContext ch).
  rewrite Horder; cbn.
  rewrite HpaymentMethodCode, Hstatus, String.eqb_refl; cbn.
  rewrite Hstate; cbn. split.
  - intros err Htransition. rewrite Htransition; cbn. reflexivity.
  - intros other Htransition. rewrite Htransition; cbn.
    run_paths env;
      repeat match goal with
        | |- context [match toISOString ?z with _ => _ end] =>
            destruct (toISOString z) eqn:?; cbn; run_paths env
        end;
      do 2 eexists; reflexivity.
Qed.

Section Transitioned.

Variable transitioned : Order.
Hypothesis Htransition : forall h,
  env _ h (OrderService_transitionToState (adminContext ch) (id order)
             "ArrangingPayment")
  = Resolved (inl transitioned).

(** X13. When the host answers [addPaymentToOrder] with an error result,
    the handler throws an [Error] with the order's code and the result's
    message; it writes no history entry and does not contact the provider.
    A result whose [errorCode] is empty is not taken for an error. *)
Theorem handlePaymentCompleteEvent_payment_error
  (err : ErrorResult)
  (Hpayment : forall h input,
     env _ h (OrderService_addPaymentToOrder (adminContext ch) (id order)
                input)
     = Resolved (inr err)) :
  let run := handlePaymentCompleteEvent toISOString ev env [] in
  let asked :=
    lookups oc ct ch (Some order)
    ++ (if (state order =? "ArrangingPayment")%string then []
        else [ Called (OrderService_transitionToState (adminContext ch)
                         (id order) "ArrangingPayment")
                 (Resolved (inl transitioned)) ])
    ++ [ Called (OrderService_addPaymentToOrder (adminContext ch) (id order)
                   {| method := pmc;
                      metadata_subscriptionId :=
                        subscription (data_object ev) |})
           (Resolved (inr err)) ] in
  (errorCode err <> ""%string ->
   run = (asked,
          Threw (Error ("Error adding payment to order " ++ code order
                          ++ ": " ++ errorResult_message err)%string)))
  /\ (errorCode err = ""%string ->
      exists rest,
        fst run
        = asked
            ++ Logged LInfo
                 ("Successfully settled payment for order " ++ code order
                    ++ " for channel " ++ ct)%string false
            :: rest).
Proof.
  unfold lookups. unfold_svc.
  rewrite HorderCode, HchannelToken; cbn.
  rewrite Hchannel; cbn. fold (adminContext ch).
  rewrite Horder; cbn.
  rewrite HpaymentMethodCode, Hstatus, String.eqb_refl; cbn.
  destruct (state order =? "ArrangingPayment")%string; cbn;
    try (rewrite Htransition; cbn); rewrite Hpayment; cbn.
  all: split;
    [ intros Hcode; apply String.eqb_neq in Hcode; rewrite Hcode; reflexivity
    | intros Hcode; rewrite Hcode, String.eqb_refl; cbn;
      run_paths env;
      repeat match goal with
        | |- context [match toISOString ?z with _ => _ end] =>
            destruct (toISOString z) eqn:?; cbn; run_paths env
        end;
      eexists; reflexivity ].
Qed.

Section Paid.

Variable paid : Order.
Hypothesis Hpayment : forall h input,
  env _ h (OrderService_addPaymentToOrder (adminContext ch) (id order) input)
  = Resolved (inl paid).

Variable cancelAt : Z.
Hypothesis HendDate :
  truthy_num (endDate (ev_metadata (data_object ev))) = Some cancelAt.

(** X14. With an end date but without a payment method of the event's
    code at that point, the payment stays added, the provider is not
    contacted, and the [UserInputError] of [getStripeHandler] is noted on
    the order and thrown. *)
Theorem handlePaymentCompleteEvent_handler_missing
  (paymentMethods : list PaymentMethod)
  (Hmethods : forall h,
     env _ h (PaymentMethodService_findAll (adminContext ch))
     = Resolved paymentMethods)
  (Hnone : forall pm, In pm paymentMethods -> pm_code pm <> pmc)
  (Hnote : forall h msg,
     env _ h (HistoryService_createHistoryEntryForOrder (adminContext ch)
                (id order) ORDER_NOTE msg false) = Resolved tt) :
  let cause :=
    UserInputError ("No paymentMethod found with code " ++ pmc)%string in
  handlePaymentCompleteEvent toISOString ev env []
  = (settled oc ct pmc ch order transitioned paid
       (subscription (data_object ev))
       ++ [ Called (PaymentMethodService_findAll (adminContext ch))
              (Resolved paymentMethods);
            Called (HistoryService_createHistoryEntryForOrder
                      (adminContext ch) (id order) ORDER_NOTE
                      (failed_end_date_note (subscription (data_object ev))
                         cause) false) (Resolved tt) ],
     Threw cause).
Proof.
  pose proof (find_code_none _ _ Hnone) as Hfind.
  unfold settled, lookups. unfold_svc.
  rewrite HorderCode, HchannelToken; cbn.
  rewrite Hchannel; cbn. fold (adminContext ch).
  rewrite Horder; cbn.
  rewrite HpaymentMethodCode, Hstatus, String.eqb_refl; cbn.
  destruct (state order =? "ArrangingPayment")%string; cbn;
    try (rewrite Htransition; cbn); rewrite Hpayment; cbn;
    rewrite HendDate; cbn; rewrite Hmethods; cbn; rewrite Hfind; cbn;
    rewrite Hnote; reflexivity.
Qed.

Section Configured.

Variable paymentMethods : list PaymentMethod.
Variable paymentMethod : PaymentMethod.
Variables apiKey redirect : string.
Hypothesis Hmethods : forall h,
  env _ h (PaymentMethodService_findAll (adminContext ch))
  = Resolved paymentMethods.
Hypothesis Hmethod :
  find (fun pm => (pm_code pm =? pmc)%string) paymentMethods
  = Some paymentMethod.
Hypothesis HapiKey :
  truthy_str (arg_value paymentMethod "apiKey") = Some apiKey.
Hypothesis Hredirect :
  truthy_str (arg_value paymentMethod "redirectUrl") = Some redirect.
Hypothesis Hupdate : forall h,
  env _ h (Stripe_subscriptions_update apiKey (subscription (data_object ev))
             cancelAt)
  = Resolved tt.
Hypothesis Hnote : forall h msg,
  env _ h (HistoryService_createHistoryEntryForOrder (adminContext ch)
             (id order) ORDER_NOTE msg false) = Resolved tt.

(** X15. With an end date and a configured payment method, the handler
    asks the provider, with the method's [apiKey], to cancel the event's
    subscription at the end date, notes the day (the first ten characters
    of the ISO date of [endDate * 1000] milliseconds) on the order and
    returns. *)
Theorem handlePaymentCompleteEvent_sets_end_date
  (iso : string)
  (Hiso : toISOString (cancelAt * 1000) = Some iso) :
  handlePaymentCompleteEvent toISOString ev env []
  = (settled oc ct pmc ch order transitioned paid
       (subscription (data_object ev))
       ++ [ Called (PaymentMethodService_findAll (adminContext ch))
              (Resolved paymentMethods);
            Called (Stripe_subscriptions_update apiKey
                      (subscription (data_object ev)) cancelAt)
              (Resolved tt);
            Called (HistoryService_createHistoryEntryForOrder
                      (adminContext ch) (id order) ORDER_NOTE
                      ("Updated subscription to end at "
                         ++ substring 0 10 iso)%string false)
              (Resolved tt) ],
     Returned tt).
Proof.
  unfold settled, lookups. unfold_svc.
  rewrite HorderCode, HchannelToken; cbn.
  rewrite Hchannel; cbn. fold (adminContext ch).
  rewrite Horder; cbn.
  rewrite HpaymentMethodCode, Hstatus, String.eqb_refl; cbn.
  destruct (state order =? "ArrangingPayment")%string; cbn;
    try (rewrite Htransition; cbn); rewrite Hpayment; cbn;
    rewrite HendDate; cbn; rewrite Hmethods; cbn;
    rewrite Hmethod, HapiKey, Hredirect; cbn;
    rewrite Hupdate; cbn; rewrite Hiso; cbn; rewrite Hnote; reflexivity.
Qed.

(** X16. When the end date is outside the range of dates, so that
    [toISOString] throws, the subscription has been updated at the provider
    already; the handler writes the failure note with the [RangeError]'s
    message instead of the success note and throws the [RangeError]. *)
Theorem handlePaymentCompleteEvent_invalid_date
  (Hiso : toISOString (cancelAt * 1000) = None) :
  let cause := RangeError "Invalid time value" in
  handlePaymentCompleteEvent toISOString ev env []
  = (settled oc ct pmc ch order transitioned paid
       (subscription (data_object ev))
       ++ [ Called (PaymentMethodService_findAll (adminContext ch))
              (Resolved paymentMethods);
            Called (Stripe_subscriptions_update apiKey
                      (subscription (data_object ev)) cancelAt)
              (Resolved tt);
            Called (HistoryService_createHistoryEntryForOrder
                      (adminContext ch) (id order) ORDER_NOTE
                      (failed_end_date_note (subscription (data_object ev))
                         cause) false)
              (Resolved tt) ],
     Threw cause).
Proof.
  unfold settled, lookups. unfold_svc.
  rewrite HorderCode, HchannelToken; cbn.
  rewrite Hchannel; cbn. fold (adminContext ch).
  rewrite Horder; cbn.
  rewrite HpaymentMethodCode, Hstatus, String.eqb_refl; cbn.
  destruct (state order =? "ArrangingPayment")%string; cbn;
    try (rewrite Htransition; cbn); rewrite Hpayment; cbn;
    rewrite HendDate; cbn; rewrite Hmethods; cbn;
    rewrite Hmethod, HapiKey, Hredirect; cbn;
    rewrite Hupdate; cbn; rewrite Hiso; cbn; rewrite Hnote; reflexivity.
Qed.

End Configured.

End Paid.

End Transitioned.

End Found.

End Handler.

(** ** The theorems on the scripted shops *)

Section Witnesses.

Local Open Scope string_scope.
Local Open Scope list_scope.

Lemma getPaymentMethodByCode_lookup_witness :
  pm_code unkeyedMethod = "stripe-subscription"%string
  /\ exists items,
       hosted methodUnkeyed _ [] (PaymentMethodService_findAll adminCtx)
       = Resolved items
       /\ In unkeyedMethod items.
Proof.
  exact (proj1 (proj2 (getPaymentMethodByCode_lookup
                         (hosted methodUnkeyed) adminCtx
                         "stripe-subscription" []))
           unkeyedMethod eq_refl).
Defined.

Lemma getStripeHandler_returns_configured_witness :
  exists pm,
    pm_code pm = "stripe-subscription"
    /\ arg_value pm "apiKey" = Some "sk_test_1"
    /\ arg_value pm "redirectUrl" = Some "https://shop.example/order".
Proof.
  destruct (getStripeHandler_returns_configured (hosted goodHost) adminCtx
              "stripe-subscription" []
              {| stripeClient := "sk_test_1";
                 redirectUrl := "https://shop.example/order";
                 downpaymentLabel := None; prorationLabel := None |}
              eq_refl)
    as (items & pm & _ & _ & Hcode & Hkey & Hurl & _).
  exists pm. exact (conj Hcode (conj Hkey Hurl)).
Defined.

Lemma getStripeHandler_unknown_method_witness :
  getStripeHandler adminCtx "stripe-subscription" (hosted methodUnknown) []
  = ([Called (PaymentMethodService_findAll adminCtx) (Resolved [otherMethod])],
     Threw (UserInputError
              "No paymentMethod found with code stripe-subscription")).
Proof.
  apply (getStripeHandler_unknown_method (hosted methodUnknown) adminCtx
           "stripe-subscription" [] [otherMethod] eq_refl).
  intros pm [<-|[]]. discriminate.
Defined.

Lemma getStripeHandler_not_configured_witness :
  getStripeHandler adminCtx "stripe-subscription" (hosted methodUnkeyed) []
  = ([ Called (PaymentMethodService_findAll adminCtx)
         (Resolved [otherMethod; unkeyedMethod]);
       Logged LWarn
         "CreatePaymentIntent failed, because no apiKey or redirect is configured for stripe-subscription"
         true ],
     Threw (UserInputError
              "Paymentmethod stripe-subscription has no apiKey or redirectUrl configured")).
Proof.
  exact (getStripeHandler_not_configured (hosted methodUnkeyed) adminCtx
           "stripe-subscription" [] [otherMethod; unkeyedMethod] unkeyedMethod
           eq_refl eq_refl (or_intror (or_introl eq_refl))).
Defined.

Lemma createLink_only_reads_the_order_witness :
  length (filter is_session_create
            (fst (createStripeSubscriptionPaymentLink sample_stringify shopCtx
                    "stripe-subscription" (hosted goodHost) []))) <= 1.
Proof.
  exact (proj1 (proj2 (createLink_only_reads_the_order sample_stringify
                         (hosted goodHost) shopCtx "stripe-subscription"))).
Defined.

Lemma createLink_exceptions_witness :
  In (UserInputError
        "Paymentmethod stripe-subscription has no apiKey or redirectUrl configured")
     [ UserInputError "No active order for session";
       UserInputError "Cannot create payment intent for empty order";
       UserInputError
         "Cannot create payment intent for order without customer";
       UserInputError
         "Cannot create payment intent for order without shippingMethod";
       UserInputError "No paymentMethod found with code stripe-subscription";
       UserInputError
         "Paymentmethod stripe-subscription has no apiKey or redirectUrl configured";
       Error "Failed to create payment link" ]
  \/ exists X (c : Call X),
       last_event
         (fst (createStripeSubscriptionPaymentLink sample_stringify shopCtx
                 "stripe-subscription" (hosted methodUnkeyed) []))
       = Some (Called c
                 (Rejected
                    (UserInputError
                       "Paymentmethod stripe-subscription has no apiKey or redirectUrl configured"))).
Proof.
  exact (createLink_exceptions sample_stringify (hosted methodUnkeyed) shopCtx
           "stripe-subscription" _ eq_refl).
Defined.

Lemma createLink_unknown_method_witness :
  createStripeSubscriptionPaymentLink sample_stringify shopCtx
    "stripe-subscription" (hosted methodUnknown) []
  = ([ Called (ActiveOrderService_getActiveOrder shopCtx)
         (Resolved (Some bareOrder));
       Called (EntityHydrator_hydrate shopCtx bareOrder hydrate_relations)
         (Resolved fullOrder);
       Called (PaymentMethodService_findAll shopCtx) (Resolved [otherMethod]) ],
     Threw (UserInputError
              "No paymentMethod found with code stripe-subscription")).
Proof.
  apply (createLink_unknown_method sample_stringify (hosted methodUnknown)
           shopCtx "stripe-subscription" bareOrder fullOrder
           {| emailAddress := "hayden@example.com" |} [otherMethod]
           (fun _ => eq_refl) (fun _ => eq_refl) eq_refl eq_refl eq_refl
           (fun _ => eq_refl)).
  intros pm [<-|[]]. discriminate.
Defined.

Lemma handlePaymentCompleteEvent_payment_first_witness :
  length (filter is_payment
            (fst (handlePaymentCompleteEvent sample_toISOString
                    (completeWebhook (Some 1700000000%Z))
                    (hosted goodHost) []))) <= 1.
Proof.
  exact (proj1 (proj2 (proj2
           (handlePaymentCompleteEvent_payment_first sample_toISOString
              (hosted goodHost) (completeWebhook (Some 1700000000%Z)))))).
Defined.

Lemma handlePaymentCompleteEvent_admin_context_witness :
  exists ct ch,
    truthy_str (channelToken
                  (ev_metadata (data_object (completeWebhook None))))
    = Some ct
    /\ hd_error (fst (handlePaymentCompleteEvent sample_toISOString
                        (completeWebhook None) (hosted goodHost) []))
       = Some (Called (ChannelService_getChannelFromToken ct) (Resolved ch))
    /\ adminCtx = adminContext ch
    /\ apiType adminCtx = "admin" /\ isAuthorized adminCtx = true
    /\ authorizedAsOwnerOnly adminCtx = false /\ channel adminCtx = ch.
Proof.
  exact (handlePaymentCompleteEvent_admin_context sample_toISOString
           (hosted goodHost) (completeWebhook None)
           (Called (OrderService_addPaymentToOrder adminCtx "7" paymentInput)
              (Resolved (inl settledOrder)))
           adminCtx
           (or_intror (or_intror (or_intror (or_introl eq_refl))))
           eq_refl).
Defined.

Lemma handlePaymentCompleteEvent_touches_found_order_witness :
  exists c oc order,
    truthy_str (orderCode (ev_metadata (data_object (completeWebhook None))))
    = Some oc
    /\ nth_error (fst (handlePaymentCompleteEvent sample_toISOString
                         (completeWebhook None) (hosted goodHost) [])) 1
       = Some (Called (OrderService_findOneByCode c oc)
                 (Resolved (Some order)))
    /\ "7" = id order.
Proof.
  exact (proj1 (handlePaymentCompleteEvent_touches_found_order
                  sample_toISOString (hosted goodHost) (completeWebhook None)
                  (Called (OrderService_addPaymentToOrder adminCtx "7"
                             paymentInput) (Resolved (inl settledOrder)))
                  (or_intror (or_intror (or_intror (or_introl eq_refl)))))
           "7" eq_refl).
Defined.

Lemma handlePaymentCompleteEvent_lookup_rejected_witness :
  handlePaymentCompleteEvent sample_toISOString (completeWebhook None)
    (hosted channelDown) []
  = ([Called (ChannelService_getChannelFromToken "shop-token")
        (Rejected hostDown)],
     Threw hostDown)
  /\ handlePaymentCompleteEvent sample_toISOString (completeWebhook None)
       (hosted orderLookupDown) []
     = ([ Called (ChannelService_getChannelFromToken "shop-token")
            (Resolved shopChannel);
          Called (OrderService_findOneByCode adminCtx "ORD7")
            (Rejected hostDown) ],
        Threw hostDown).
Proof.
  split.
  - exact (proj1 (handlePaymentCompleteEvent_lookup_rejected
                    sample_toISOString (hosted channelDown)
                    (completeWebhook None) "ORD7" "shop-token" hostDown
                    eq_refl eq_refl) eq_refl).
  - exact (proj2 (handlePaymentCompleteEvent_lookup_rejected
                    sample_toISOString (hosted orderLookupDown)
                    (completeWebhook None) "ORD7" "shop-token" hostDown
                    eq_refl eq_refl) shopChannel eq_refl eq_refl).
Defined.

Lemma handlePaymentCompleteEvent_transition_error_witness :
  handlePaymentCompleteEvent sample_toISOString (completeWebhook None)
    (hosted transitionRefused) []
  = ([ Called (ChannelService_getChannelFromToken "shop-token")
         (Resolved shopChannel);
       Called (OrderService_findOneByCode adminCtx "ORD7")
         (Resolved (Some fullOrder));
       Called (OrderService_transitionToState adminCtx "7" "ArrangingPayment")
         (Resolved (inr (inl refusal))) ],
     Threw (Error
              "Error transitioning order ORD7 from AddingItems to ArrangingPayment: Cannot transition without a customer"))
  /\ exists reply rest,
       fst (handlePaymentCompleteEvent sample_toISOString
              (completeWebhook None) (hosted transitionRefusedForeign) [])
       = [ Called (ChannelService_getChannelFromToken "shop-token")
             (Resolved shopChannel);
           Called (OrderService_findOneByCode adminCtx "ORD7")
             (Resolved (Some fullOrder)) ]
           ++ [ Called (OrderService_transitionToState adminCtx "7"
                          "ArrangingPayment")
                  (Resolved (inr (inr foreignRefusal)));
                Called (OrderService_addPaymentToOrder adminCtx "7"
                          paymentInput) reply ]
           ++ rest.
Proof.
  split.
  - exact (proj1 (handlePaymentCompleteEvent_transition_error
                    sample_toISOString (hosted transitionRefused)
                    (completeWebhook None)
                    "ORD7" "shop-token" "stripe-subscription" shopChannel
                    fullOrder
                    eq_refl eq_refl eq_refl (fun _ => eq_refl)
                    (fun _ => eq_refl) eq_refl eq_refl)
             refusal (fun _ => eq_refl)).
  - exact (proj2 (handlePaymentCompleteEvent_transition_error
                    sample_toISOString (hosted transitionRefusedForeign)
                    (completeWebhook None)
                    "ORD7" "shop-token" "stripe-subscription" shopChannel
                    fullOrder
                    eq_refl eq_refl eq_refl (fun _ => eq_refl)
                    (fun _ => eq_refl) eq_refl eq_refl)
             foreignRefusal (fun _ => eq_refl)).
Defined.

Lemma handlePaymentCompleteEvent_payment_error_witness :
  handlePaymentCompleteEvent sample_toISOString (completeWebhook None)
    (hosted paymentDeclined) []
  = ([ Called (ChannelService_getChannelFromToken "shop-token")
         (Resolved shopChannel);
       Called (OrderService_findOneByCode adminCtx "ORD7")
         (Resolved (Some fullOrder));
       Called (OrderService_transitionToState adminCtx "7" "ArrangingPayment")
         (Resolved (inl arrangingOrder));
       Called (OrderService_addPaymentToOrder adminCtx "7" paymentInput)
         (Resolved (inr declined)) ],
     Threw (Error
              "Error adding payment to order ORD7: The payment was declined")).
Proof.
  refine (proj1 (handlePaymentCompleteEvent_payment_error sample_toISOString
                   (hosted paymentDeclined) (completeWebhook None)
                   "ORD7" "shop-token" "stripe-subscription" shopChannel
                   fullOrder
                   eq_refl eq_refl eq_refl (fun _ => eq_refl)
                   (fun _ => eq_refl) eq_refl arrangingOrder
                   (fun _ => eq_refl) declined (fun _ _ => eq_refl)) _).
  discriminate.
Defined.

Lemma handlePaymentCompleteEvent_handler_missing_witness :
  handlePaymentCompleteEvent sample_toISOString
    (completeWebhook (Some 1700000000%Z)) (hosted methodUnknown) []
  = (settledTrace
       ++ [ Called (PaymentMethodService_findAll adminCtx)
              (Resolved [otherMethod]);
            Called (HistoryService_createHistoryEntryForOrder adminCtx "7"
                      ORDER_NOTE
                      "!! Failed to set subscription end date for subscription sub_1: No paymentMethod found with code stripe-subscription"
                      false) (Resolved tt) ],
     Threw (UserInputError
              "No paymentMethod found with code stripe-subscription")).
Proof.
  refine (handlePaymentCompleteEvent_handler_missing sample_toISOString
            (hosted methodUnknown) (completeWebhook (Some 1700000000%Z))
            "ORD7" "shop-token" "stripe-subscription" shopChannel fullOrder
            eq_refl eq_refl eq_refl (fun _ => eq_refl) (fun _ => eq_refl)
            eq_refl arrangingOrder (fun _ => eq_refl)
            settledOrder (fun _ _ => eq_refl) 1700000000%Z eq_refl
            [otherMethod] (fun _ => eq_refl) _ (fun _ _ => eq_refl)).
  intros pm [<-|[]]. discriminate.
Defined.

Lemma handlePaymentCompleteEvent_sets_end_date_witness :
  handlePaymentCompleteEvent sample_toISOString
    (completeWebhook (Some 1700000000%Z)) (hosted goodHost) []
  = (settledTrace
       ++ [ Called (PaymentMethodService_findAll adminCtx)
              (Resolved [stripeMethod]);
            Called (Stripe_subscriptions_update "sk_test_1" "sub_1"
                      1700000000%Z) (Resolved tt);
            Called (HistoryService_createHistoryEntryForOrder adminCtx "7"
                      ORDER_NOTE "Updated subscription to end at 2023-11-14"
                      false) (Resolved tt) ],
     Returned tt).
Proof.
  exact (handlePaymentCompleteEvent_sets_end_date sample_toISOString
           (hosted goodHost) (completeWebhook (Some 1700000000%Z))
           "ORD7" "shop-token" "stripe-subscription" shopChannel fullOrder
           eq_refl eq_refl eq_refl (fun _ => eq_refl) (fun _ => eq_refl)
           eq_refl arrangingOrder (fun _ => eq_refl)
           settledOrder (fun _ _ => eq_refl) 1700000000%Z eq_refl
           [stripeMethod] stripeMethod "sk_test_1"
           "https://shop.example/order"
           (fun _ => eq_refl) eq_refl eq_refl eq_refl (fun _ => eq_refl)
           (fun _ _ => eq_refl) "2023-11-14T22:13:20.000Z" eq_refl).
Defined.

Lemma handlePaymentCompleteEvent_invalid_date_witness :
  handlePaymentCompleteEvent sample_toISOString
    (completeWebhook (Some 9000000000000%Z)) (hosted goodHost) []
  = (settledTrace
       ++ [ Called (PaymentMethodService_findAll adminCtx)
              (Resolved [stripeMethod]);
            Called (Stripe_subscriptions_update "sk_test_1" "sub_1"
                      9000000000000%Z) (Resolved tt);
            Called (HistoryService_createHistoryEntryForOrder adminCtx "7"
                      ORDER_NOTE
                      "!! Failed to set subscription end date for subscription sub_1: Invalid time value"
                      false) (Resolved tt) ],
     Threw (RangeError "Invalid time value")).
Proof.
  exact (handlePaymentCompleteEvent_invalid_date sample_toISOString
           (hosted goodHost) (completeWebhook (Some 9000000000000%Z))
           "ORD7" "shop-token" "stripe-subscription" shopChannel fullOrder
           eq_refl eq_refl eq_refl (fun _ => eq_refl) (fun _ => eq_refl)
           eq_refl arrangingOrder (fun _ => eq_refl)
           settledOrder (fun _ _ => eq_refl) 9000000000000%Z eq_refl
           [stripeMethod] stripeMethod "sk_test_1"
           "https://shop.example/order"
           (fun _ => eq_refl) eq_refl eq_refl eq_refl (fun _ => eq_refl)
           (fun _ _ => eq_refl) eq_refl).
Defined.

Lemma handlePaymentCompleteEvent_after_createLink_witness :
  handlePaymentCompleteEvent sample_toISOString echoWebhook (hosted goodHost) []
  = (settledTrace
       ++ [ Called (HistoryService_createHistoryEntryForOrder adminCtx "7"
                      ORDER_NOTE
                      "!! Failed to set subscription end date for subscription sub_1!"
                      false) (Resolved tt);
            Logged LError
              "Incoming webhook is missing metadata.endDate, failed to set end date for subscription sub_1"
              true ],
     Returned tt).
Proof.
  refine (proj1 (handlePaymentCompleteEvent_after_createLink
                   sample_toISOString (hosted goodHost) echoWebhook
                   fullOrder {| emailAddress := "hayden@example.com" |}
                   shopCtx "stripe-subscription" "https://shop.example/order"
                   shopChannel fullOrder arrangingOrder settledOrder
                   eq_refl eq_refl _ _ _
                   (fun _ => eq_refl) (fun _ => eq_refl) (fun _ => eq_refl)
                   (fun _ _ => eq_refl) (fun _ _ => eq_refl)));
    discriminate.
Defined.

End Witnesses.

End StripeSubscriptionMore.
